(** * NDV panel layout: the allocation engine of [useNdvLayout.ts]

    A shallow embedding of
    [packages/frontend/editor-ui/src/features/ndv/panel/composables/useNdvLayout.ts]
    and the properties its specification states about it.

    Number model.  A JavaScript [number] is modelled as an extended rational:
    [NaN], the two infinities, and the finite values as exact rationals.
    Arithmetic on finite values is exact: rounding, overflow to infinity and
    the sign of zero are not modelled, so an equality the specification states
    "within floating-point tolerance" is an equality of rationals here
    ([num_eq]).  The special values follow IEEE 754: an operation on [NaN] is
    [NaN], [0/0] and [Infinity - Infinity] are [NaN], every comparison with
    [NaN] is false, and [Math.max] returns [NaN] as soon as one argument is.

    Range.  Doubles and rationals agree up to rounding only while no
    intermediate value overflows and no term swamps another, so a statement
    about the values that [safePanelWidth] or [defaultPanelSize] compute is
    made for a container width that is unusable or at least one pixel
    ([widthInRange]) and for candidates whose finite components are at most
    [candidateBound] ([candidateInRange]). *)

From Stdlib Require Import QArith Lqa Bool.
From stdpp Require Import gmap strings.

Local Open Scope Q_scope.

(** ** JavaScript numbers *)

Inductive number : Type :=
| NaN
| PInf
| NInf
| Fin (q : Q).

Definition Qltb (a b : Q) : bool := negb (Qle_bool b a).

(** [a + b].  The sum of two finite values is their exact sum: a double
    would round it, and overflow to an infinity beyond about 1.8e308. *)
Definition num_add (a b : number) : number :=
  match a, b with
  | NaN, _ | _, NaN => NaN
  | PInf, NInf | NInf, PInf => NaN
  | PInf, _ | _, PInf => PInf
  | NInf, _ | _, NInf => NInf
  | Fin x, Fin y => Fin (x + y)
  end.

(** [- a] *)
Definition num_neg (a : number) : number :=
  match a with
  | NaN => NaN
  | PInf => NInf
  | NInf => PInf
  | Fin x => Fin (- x)
  end.

(** [a - b] *)
Definition num_sub (a b : number) : number := num_add a (num_neg b).

(** An infinity of the given sign ([true] is negative). *)
Definition inf_of_sign (negative : bool) : number :=
  if negative then NInf else PInf.

(** [Infinity * y] for a finite [y], up to the sign of the infinity. *)
Definition inf_times (negative : bool) (y : Q) : number :=
  if Qeq_bool y 0 then NaN else inf_of_sign (xorb negative (Qltb y 0)).

(** [a * b].  The product of two finite values is exact as well: no
    rounding, no overflow, no underflow. *)
Definition num_mul (a b : number) : number :=
  match a, b with
  | NaN, _ | _, NaN => NaN
  | PInf, PInf | NInf, NInf => PInf
  | PInf, NInf | NInf, PInf => NInf
  | PInf, Fin y | Fin y, PInf => inf_times false y
  | NInf, Fin y | Fin y, NInf => inf_times true y
  | Fin x, Fin y => Fin (x * y)
  end.

(** [a / b].  A finite value divided by zero is an infinity of the sign of
    the dividend, and [0 / 0] is [NaN].  The quotient of two finite values
    is exact, so a sum such as [x + (100 - x)] is exactly 100 here where a
    double may land one unit in the last place off. *)
Definition num_div (a b : number) : number :=
  match a, b with
  | NaN, _ | _, NaN => NaN
  | (PInf | NInf), (PInf | NInf) => NaN
  | PInf, Fin y => inf_of_sign (Qltb y 0)
  | NInf, Fin y => inf_of_sign (negb (Qltb y 0))
  | Fin _, (PInf | NInf) => Fin 0
  | Fin x, Fin y =>
      if Qeq_bool y 0
      then (if Qeq_bool x 0 then NaN else inf_of_sign (Qltb x 0))
      else Fin (x / y)
  end.

(** [a < b] *)
Definition num_lt (a b : number) : bool :=
  match a, b with
  | NaN, _ | _, NaN => false
  | _, NInf => false
  | NInf, _ => true
  | PInf, _ => false
  | Fin _, PInf => true
  | Fin x, Fin y => Qltb x y
  end.

(** [a <= b] *)
Definition num_le (a b : number) : bool :=
  match a, b with
  | NaN, _ | _, NaN => false
  | NInf, _ => true
  | _, NInf => false
  | _, PInf => true
  | PInf, _ => false
  | Fin x, Fin y => Qle_bool x y
  end.

(** [a > b] and [a >= b] *)
Definition num_gt (a b : number) : bool := num_lt b a.
Definition num_ge (a b : number) : bool := num_le b a.

(** [Number.isFinite(a)] *)
Definition Number_isFinite (a : number) : bool :=
  match a with
  | Fin _ => true
  | _ => false
  end.

(** [Math.max(a, b)] *)
Definition Math_max (a b : number) : number :=
  match a, b with
  | NaN, _ | _, NaN => NaN
  | PInf, _ | _, PInf => PInf
  | NInf, y => y
  | x, NInf => x
  | Fin x, Fin y => if Qle_bool x y then Fin y else Fin x
  end.

(** [!a]: a number is falsy when it is zero or [NaN]. *)
Definition num_falsy (a : number) : bool :=
  match a with
  | NaN => true
  | Fin x => Qeq_bool x 0
  | _ => false
  end.

(** Equality of numbers as values (rationals up to [Qeq]; [NaN] is the same
    value as [NaN]). *)
Definition num_eq (a b : number) : Prop :=
  match a, b with
  | NaN, NaN | PInf, PInf | NInf, NInf => True
  | Fin x, Fin y => x == y
  | _, _ => False
  end.

Definition num_eqb (a b : number) : bool :=
  match a, b with
  | NaN, NaN | PInf, PInf | NInf, NInf => true
  | Fin x, Fin y => Qeq_bool x y
  | _, _ => false
  end.

Declare Scope num_scope.
Delimit Scope num_scope with num.
Bind Scope num_scope with number.
Infix "+" := num_add : num_scope.
Infix "-" := num_sub : num_scope.
Infix "*" := num_mul : num_scope.
Infix "/" := num_div : num_scope.
Infix "<?" := num_lt : num_scope.
Infix "<=?" := num_le : num_scope.
Infix ">?" := num_gt : num_scope.
Infix ">=?" := num_ge : num_scope.
Infix "==" := num_eq : num_scope.

(** ** Data model *)

(** [type NdvPanelsSize = { left: number; main: number; right: number }] *)
Record NdvPanelsSize : Type := mkSize {
  left : number;
  main : number;
  right : number
}.

(** Modelled from the spec: [MainPanelType], the layout variant, whose
    declaration in [ndv.types] is not part of the sources at hand.  It is the
    closed set of tags of the data model, the ones [defaultPanelSize]
    switches on. *)
Inductive MainPanelType : Type :=
| regular
| dragless
| inputless
| unknown
| wide.

(** What the composable reads from its surroundings: the observed width of
    the container ([containerSize.width.value]) and its two options. *)
Record Env : Type := mkEnv {
  containerWidth : number;
  hasInputPanel : bool;
  paneType : MainPanelType
}.

(** Modelled from the spec: [ResizeData] of [@/Interface], which is not part
    of the sources at hand: a width in pixels and a direction tag, the two
    fields [onResize] reads. *)
Record ResizeData : Type := mkResize {
  width : number;
  direction : string
}.

(** Modelled from the spec: [XYPosition] of [@/Interface], a 2-tuple
    [[x, y]] in pixels. *)
Definition XYPosition : Type := (number * number)%type.

(** ** Unit conversion *)

Definition MIN_MAIN_PANEL_WIDTH_PX : number := Fin 368.
Definition MIN_PANEL_WIDTH_PX : number := Fin 120.
Definition DEFAULT_INPUTLESS_MAIN_WIDTH_PX : number := Fin 480.
Definition DEFAULT_WIDE_MAIN_WIDTH_PX : number := Fin 640.
Definition DEFAULT_REGULAR_MAIN_WIDTH_PX : number := Fin 420.

(** The guard [!containerWidth.value || containerWidth.value <= 0]. *)
Definition widthUnavailable (cw : number) : bool :=
  num_falsy cw || (cw <=? Fin 0)%num.

Definition percentageToPixels (e : Env) (percentage : number) : number :=
  if widthUnavailable (containerWidth e) then Fin 0
  else ((percentage / Fin 100) * containerWidth e)%num.

Definition pixelsToPercentage (e : Env) (pixels : number) : number :=
  if widthUnavailable (containerWidth e) then Fin 0
  else ((pixels / containerWidth e) * Fin 100)%num.

Definition minMainPanelWidthPercentage (e : Env) : number :=
  pixelsToPercentage e MIN_MAIN_PANEL_WIDTH_PX.

Definition minPanelWidthPercentage (e : Env) : number :=
  pixelsToPercentage e MIN_PANEL_WIDTH_PX.

Definition panelWidthPixels (e : Env) (p : NdvPanelsSize) : NdvPanelsSize :=
  {| left := percentageToPixels e (left p);
     main := percentageToPixels e (main p);
     right := percentageToPixels e (right p) |}.

(** ** Default allocation *)

Definition defaultPanelSize (e : Env) : NdvPanelsSize :=
  if widthUnavailable (containerWidth e) then
    match paneType e with
    | inputless => {| left := Fin 0; main := Fin 40; right := Fin 60 |}
    | wide => {| left := Fin 23.5; main := Fin 53; right := Fin 23.5 |}
    | dragless | unknown | regular =>
        {| left := Fin 32.5; main := Fin 35; right := Fin 32.5 |}
    end
  else
    match paneType e with
    | inputless =>
        let main := pixelsToPercentage e DEFAULT_INPUTLESS_MAIN_WIDTH_PX in
        {| left := Fin 0; main := main; right := (Fin 100 - main)%num |}
    | wide =>
        let main := pixelsToPercentage e DEFAULT_WIDE_MAIN_WIDTH_PX in
        let panels := ((Fin 100 - main) / Fin 2)%num in
        {| left := panels; main := main; right := panels |}
    | dragless | unknown | regular =>
        let main := pixelsToPercentage e DEFAULT_REGULAR_MAIN_WIDTH_PX in
        let panels := ((Fin 100 - main) / Fin 2)%num in
        {| left := panels; main := main; right := panels |}
    end.

(** ** Normalizer *)

(** The inner [sanitizeValue] of [safePanelWidth]. *)
Definition sanitizeValue (value : number) : number :=
  if negb (Number_isFinite value) || (value <? Fin 0)%num then Fin 0 else value.

(** [minLeft], [minRight] and [minMain] of [safePanelWidth]. *)
Definition minLeft (e : Env) : number :=
  if hasInputPanel e then minPanelWidthPercentage e else Fin 0.
Definition minRight (e : Env) : number := minPanelWidthPercentage e.
Definition minMain (e : Env) : number := minMainPanelWidthPercentage e.

(** The first value of [newPanelWidth]: every field sanitized, then raised
    to its minimum. *)
Definition clampedPanelWidth (e : Env) (p : NdvPanelsSize) : NdvPanelsSize :=
  {| left := Math_max (minLeft e) (sanitizeValue (left p));
     main := Math_max (minMain e) (sanitizeValue (main p));
     right := Math_max (minRight e) (sanitizeValue (right p)) |}.

(** [left + main + right], added from the left as the source does. *)
Definition total (p : NdvPanelsSize) : number :=
  (left p + main p + right p)%num.

Definition safePanelWidth (e : Env) (p : NdvPanelsSize) : NdvPanelsSize :=
  let newPanelWidth := clampedPanelWidth e p in
  let total := total newPanelWidth in
  if (total >? Fin 100)%num then
    let overflow := (total - Fin 100)%num in
    let trimLeft :=
      ((left newPanelWidth / (left newPanelWidth + right newPanelWidth))
       * overflow)%num in
    let trimRight := (overflow - trimLeft)%num in
    {| left := Math_max (minLeft e) (left newPanelWidth - trimLeft)%num;
       main := main newPanelWidth;
       right := Math_max (minRight e) (right newPanelWidth - trimRight)%num |}
  else newPanelWidth.

(** ** Stored values *)

#[local] Set Warnings "-register-all".

(** A JavaScript value as [JSON.parse] produces it, or as an object literal of
    the source holds it.  An object is the list of its own properties, one
    entry per name. *)
Inductive jsval : Type :=
| JUndefined
| JNull
| JBool (b : bool)
| JNum (n : number)
| JStr (s : string)
| JArr (items : list jsval)
| JObj (fields : list (string * jsval)).

(** A string held by [localStorage].  A string that [JSON.parse] accepts is
    identified with the value it denotes; every other string (the empty one
    among them) is kept as it is. *)
Inductive storedText : Type :=
| JsonText (v : jsval)
| OtherText (s : string).

(** Truthiness of a string: every string but the empty one.  No JSON text
    is empty. *)
Definition text_truthy (t : storedText) : bool :=
  match t with
  | JsonText _ => true
  | OtherText s => negb (String.eqb s EmptyString)
  end.

(** Truthiness of a value. *)
Definition js_truthy (v : jsval) : bool :=
  match v with
  | JUndefined | JNull => false
  | JBool b => b
  | JNum n => negb (num_falsy n)
  | JStr s => negb (String.eqb s EmptyString)
  | JArr _ | JObj _ => true
  end.

Fixpoint assoc (k : string) (fields : list (string * jsval)) : jsval :=
  match fields with
  | [] => JUndefined
  | (k', v) :: rest => if String.eqb k k' then v else assoc k rest
  end.

(** Property access [v.k] on a truthy value: an own property of an object,
    [undefined] otherwise. *)
Definition prop (v : jsval) (k : string) : jsval :=
  match v with
  | JObj fields => assoc k fields
  | _ => JUndefined
  end.

(** [Number.isFinite(v)]: no coercion, only a finite number passes. *)
Definition js_isFinite (v : jsval) : bool :=
  match v with
  | JNum n => Number_isFinite n
  | _ => false
  end.

(** The number a value is read as once [Number.isFinite] has accepted it. *)
Definition as_number (v : jsval) : number :=
  match v with
  | JNum n => n
  | _ => NaN
  end.

(** An [NdvPanelsSize] object as a value, and the three fields read back. *)
Definition size_to_js (p : NdvPanelsSize) : jsval :=
  JObj [("left"%string, JNum (left p));
        ("main"%string, JNum (main p));
        ("right"%string, JNum (right p))].

Definition js_to_size (v : jsval) : NdvPanelsSize :=
  {| left := as_number (prop v "left");
     main := as_number (prop v "main");
     right := as_number (prop v "right") |}.

(** [JSON.stringify] of a number: [NaN] and the infinities are written
    [null]. *)
Definition json_number (n : number) : jsval :=
  if Number_isFinite n then JNum n else JNull.

(** [JSON.stringify(panelWidthPercentage.value)] *)
Definition JSON_stringify (p : NdvPanelsSize) : storedText :=
  JsonText (JObj [("left"%string, json_number (left p));
                  ("main"%string, json_number (main p));
                  ("right"%string, json_number (right p))]).

(** [JSON.parse] *)
Definition JSON_parse (t : storedText) : option jsval :=
  match t with
  | JsonText v => Some v
  | OtherText _ => None
  end.

(** Modelled from the spec: [jsonParse] of the [n8n-workflow] package, which
    is not part of the sources at hand.  The stored string is parsed, and when
    parsing fails the [fallbackValue] it was given is returned in its place
    (the "parse fallback" of the persistence adapter). *)
Definition jsonParse (t : storedText) (fallbackValue : jsval) : jsval :=
  match JSON_parse t with
  | Some v => v
  | None => fallbackValue
  end.

(** ** Layout state and persistence *)

(** The mutable state: the live allocation and the key/value store. *)
Record NdvState : Type := mkState {
  panelWidthPercentage : NdvPanelsSize;
  localStorage : gmap string storedText
}.

Definition initialPanelWidthPercentage : NdvPanelsSize :=
  {| left := Fin 40; main := Fin 20; right := Fin 40 |}.

(** [toValue(options.paneType).toUpperCase()] *)
Definition toUpperCase (t : MainPanelType) : string :=
  match t with
  | regular => "REGULAR"
  | dragless => "DRAGLESS"
  | inputless => "INPUTLESS"
  | unknown => "UNKNOWN"
  | wide => "WIDE"
  end.

(** The validity test of [loadPanelSize] on the parsed value. *)
Definition isValid (storedPanelSize : jsval) : bool :=
  js_isFinite (prop storedPanelSize "left") &&
  js_isFinite (prop storedPanelSize "main") &&
  js_isFinite (prop storedPanelSize "right") &&
  (as_number (prop storedPanelSize "left") >=? Fin 0)%num &&
  (as_number (prop storedPanelSize "main") >=? Fin 0)%num &&
  (as_number (prop storedPanelSize "right") >=? Fin 0)%num &&
  (as_number (prop storedPanelSize "left")
   + as_number (prop storedPanelSize "main")
   + as_number (prop storedPanelSize "right") <=? Fin 200)%num.

Section Persistence.

(** The constant [LOCAL_STORAGE_NDV_PANEL_WIDTH] of [ndv.constants], the
    fixed prefix of the storage keys; its declaration is not part of the
    sources at hand, so it is a parameter. *)
Variable LOCAL_STORAGE_NDV_PANEL_WIDTH : string.

Definition localStorageKey (e : Env) : string :=
  LOCAL_STORAGE_NDV_PANEL_WIDTH +:+ "_" +:+ toUpperCase (paneType e).

Definition persistPanelSize (e : Env) (st : NdvState) : NdvState :=
  {| panelWidthPercentage := panelWidthPercentage st;
     localStorage :=
       <[localStorageKey e := JSON_stringify (panelWidthPercentage st)]>
         (localStorage st) |}.

Definition loadPanelSize (e : Env) (st : NdvState) : NdvState :=
  let storedPanelSizeString := localStorage st !! localStorageKey e in
  let defaultSize := defaultPanelSize e in
  match storedPanelSizeString with
  | Some text =>
      if text_truthy text then
        let storedPanelSize := jsonParse text (size_to_js defaultSize) in
        if js_truthy storedPanelSize && isValid storedPanelSize then
          {| panelWidthPercentage :=
               safePanelWidth e (js_to_size storedPanelSize);
             localStorage := localStorage st |}
        else
          {| panelWidthPercentage := safePanelWidth e defaultSize;
             localStorage := delete (localStorageKey e) (localStorage st) |}
      else
        {| panelWidthPercentage := safePanelWidth e defaultSize;
           localStorage := localStorage st |}
  | None =>
      {| panelWidthPercentage := safePanelWidth e defaultSize;
         localStorage := localStorage st |}
  end.

Definition onResizeEnd (e : Env) (st : NdvState) : NdvState :=
  persistPanelSize e st.

(** The watcher of [containerWidth]: nothing while the new width is
    falsy, a full load when the old width was, and a re-normalization of the
    live allocation otherwise. *)
Definition onContainerWidthChange (e : Env) (oldWidth : number)
    (st : NdvState) : NdvState :=
  if num_falsy (containerWidth e) then st
  else if num_falsy oldWidth then loadPanelSize e st
  else
    {| panelWidthPercentage := safePanelWidth e (panelWidthPercentage st);
       localStorage := localStorage st |}.

End Persistence.

(** ** Gestures *)

Definition setPanelWidth (st : NdvState) (p : NdvPanelsSize) : NdvState :=
  {| panelWidthPercentage := p; localStorage := localStorage st |}.

Definition onResize (e : Env) (event : ResizeData) (st : NdvState) : NdvState :=
  let newMain :=
    Math_max (minMainPanelWidthPercentage e) (pixelsToPercentage e (width event)) in
  let initialLeft := left (panelWidthPercentage st) in
  let initialMain := main (panelWidthPercentage st) in
  let initialRight := right (panelWidthPercentage st) in
  let diffMain := (newMain - initialMain)%num in
  if String.eqb (direction event) "left" then
    let potentialLeft := (initialLeft - diffMain)%num in
    if (potentialLeft <? minPanelWidthPercentage e)%num then st
    else
      let newLeft := Math_max (minPanelWidthPercentage e) potentialLeft in
      let newRight := initialRight in
      setPanelWidth st
        (safePanelWidth e {| left := newLeft; main := newMain; right := newRight |})
  else if String.eqb (direction event) "right" then
    let potentialRight := (initialRight - diffMain)%num in
    if (potentialRight <? minPanelWidthPercentage e)%num then st
    else
      let newRight := Math_max (minPanelWidthPercentage e) potentialRight in
      let newLeft := initialLeft in
      setPanelWidth st
        (safePanelWidth e {| left := newLeft; main := newMain; right := newRight |})
  else st.

Definition onDrag (e : Env) (position : XYPosition) (st : NdvState) : NdvState :=
  let current := panelWidthPercentage st in
  let newLeft :=
    Math_max (minPanelWidthPercentage e)
      (pixelsToPercentage e (fst position) - main current / Fin 2)%num in
  let newRight :=
    Math_max (minPanelWidthPercentage e) (Fin 100 - newLeft - main current)%num in
  if (newLeft + main current + newRight >? Fin 100)%num then st
  else
    let sanitized :=
      safePanelWidth e
        {| left := newLeft; main := main current; right := newRight |} in
    setPanelWidth st
      {| left := left sanitized; main := main current; right := right sanitized |}.

(** ** Vocabulary of the specification *)

(** [Number.isNaN(a)] *)
Definition Number_isNaN (a : number) : bool :=
  match a with
  | NaN => true
  | _ => false
  end.

(** "A positive finite number", the condition the specification puts on the
    container width. *)
Definition positiveFinite (cw : number) : bool :=
  Number_isFinite cw && (cw >? Fin 0)%num.

(** Equality of two allocations as values, decided. *)
Definition size_eqb (p q : NdvPanelsSize) : bool :=
  num_eqb (left p) (left q) && num_eqb (main p) (main q) &&
  num_eqb (right p) (right q).

(** The three fields are finite and non-negative. *)
Definition finiteNonNegative (p : NdvPanelsSize) : Prop :=
  Number_isFinite (left p) = true /\ Number_isFinite (main p) = true /\
  Number_isFinite (right p) = true /\
  (left p >=? Fin 0)%num = true /\ (main p >=? Fin 0)%num = true /\
  (right p >=? Fin 0)%num = true.

(** Each field is at least its minimum. *)
Definition respectsMinimums (e : Env) (p : NdvPanelsSize) : Prop :=
  (left p >=? minLeft e)%num = true /\ (main p >=? minMain e)%num = true /\
  (right p >=? minRight e)%num = true.

(** An allocation as the data model wants it: finite, non-negative fields
    that respect the three minimums and sum to 100. *)
Definition validAllocation (e : Env) (a : NdvPanelsSize) : Prop :=
  finiteNonNegative a /\ respectsMinimums e a /\ (total a == Fin 100)%num.

(** The constants of the overflow branch of [safePanelWidth], as functions
    of the clamped allocation. *)
Definition overflow (c : NdvPanelsSize) : number := (total c - Fin 100)%num.
Definition trimLeft (c : NdvPanelsSize) : number :=
  (left c / (left c + right c) * overflow c)%num.
Definition trimRight (c : NdvPanelsSize) : number :=
  (overflow c - trimLeft c)%num.

(** The one candidate [safePanelWidth] cannot trim: an overflow with both
    outer panels clamped to zero. *)
Definition degenerate (e : Env) (p : NdvPanelsSize) : bool :=
  let c := clampedPanelWidth e p in
  (total c >? Fin 100)%num && num_eqb (left c + right c)%num (Fin 0).

(** The floor the specification gives the left panel: the minimum panel
    width when an input panel is present, [0] otherwise.  It is the
    [minLeft] of [safePanelWidth]. *)
Definition minLeftPercentage (e : Env) : number := minLeft e.

(** The left branch of [onResize] as the specification words it, over the
    floor [floor] that the left panel must keep. *)
Definition resizeLeftTo (floor : number) (e : Env) (w : number)
    (st : NdvState) : NdvState :=
  let current := panelWidthPercentage st in
  let newMain := Math_max (minMainPanelWidthPercentage e) (pixelsToPercentage e w) in
  let potentialLeft := (left current - (newMain - main current))%num in
  if (potentialLeft <? floor)%num then st
  else
    setPanelWidth st
      (safePanelWidth e
         {| left := Math_max floor potentialLeft;
            main := newMain;
            right := right current |}).

(** The sum that [onDrag] compares with 100, over the floor [floor] of the
    left panel: [newLeft + currentMain + newRight]. *)
Definition dragTotal (floor : number) (e : Env) (position : XYPosition)
    (st : NdvState) : number :=
  let currentMain := main (panelWidthPercentage st) in
  let newLeft :=
    Math_max floor (pixelsToPercentage e (fst position) - currentMain / Fin 2)%num in
  let newRight :=
    Math_max (minRight e) (Fin 100 - newLeft - currentMain)%num in
  (newLeft + currentMain + newRight)%num.

(** The default width of the main panel of a variant, in pixels. *)
Definition defaultMainWidthPx (t : MainPanelType) : number :=
  match t with
  | inputless => DEFAULT_INPUTLESS_MAIN_WIDTH_PX
  | wide => DEFAULT_WIDE_MAIN_WIDTH_PX
  | dragless | unknown | regular => DEFAULT_REGULAR_MAIN_WIDTH_PX
  end.

(** A parsed value that is structurally invalid, in the words of the
    specification: a field that is not a finite number, a negative field, or
    a sum above 200. *)
Definition structurallyInvalid (v : jsval) : Prop :=
  js_isFinite (prop v "left") = false \/
  js_isFinite (prop v "main") = false \/
  js_isFinite (prop v "right") = false \/
  (as_number (prop v "left") <? Fin 0)%num = true \/
  (as_number (prop v "main") <? Fin 0)%num = true \/
  (as_number (prop v "right") <? Fin 0)%num = true \/
  (as_number (prop v "left") + as_number (prop v "main")
   + as_number (prop v "right") >? Fin 200)%num = true.

(** ** Range of the statements on computed values *)

(** A container width within range: one the guard of the converters turns
    down (every pixel measure then converts to 0), or at least one pixel, so
    that the percentages of the pixel constants, [px / width * 100], stay
    far from the overflow of a double. *)
Definition widthInRange (cw : number) : bool :=
  widthUnavailable cw || (Fin 1 <=? cw)%num.

(** The largest finite component of a candidate within range: ten times the
    whole container, in percent. *)
Definition candidateBound : number := Fin 1000.

(** A component within range: not finite ([sanitizeValue] turns it into 0),
    or at most [candidateBound] (a negative one is turned into 0 as well). *)
Definition componentInRange (v : number) : bool :=
  negb (Number_isFinite v) || (v <=? candidateBound)%num.

Definition candidateInRange (p : NdvPanelsSize) : bool :=
  componentInRange (left p) && componentInRange (main p)
  && componentInRange (right p).

(** ** Concrete inputs *)

(** The container of the scenarios of the specification: 1000px wide, with
    an input panel; the minimums are 12%, 36.8% and 12%. *)
Definition env1000 : Env :=
  {| containerWidth := Fin 1000; hasInputPanel := true; paneType := regular |}.

(** The same container before its width is known. *)
Definition env0 : Env :=
  {| containerWidth := Fin 0; hasInputPanel := true; paneType := regular |}.

Definition stateOf (a : NdvPanelsSize) (store : gmap string storedText) : NdvState :=
  {| panelWidthPercentage := a; localStorage := store |}.

(** ** Further vocabulary *)

(** The watcher of [paneType] (immediate): a change of variant runs a fresh
    load. *)
Definition onPaneTypeChange (prefix : string) (e : Env) (st : NdvState) : NdvState :=
  loadPanelSize prefix e st.

(** A container with room for the default allocation: no width yet, or a
    width that holds the default main panel and a minimum panel on each side
    (the inputless variant has no left panel, and fits only without an input
    panel). *)
Definition defaultFits (e : Env) : bool :=
  widthUnavailable (containerWidth e)
  || match paneType e with
     | inputless =>
         negb (hasInputPanel e)
         && (DEFAULT_INPUTLESS_MAIN_WIDTH_PX + MIN_PANEL_WIDTH_PX <=? containerWidth e)%num
     | t =>
         (defaultMainWidthPx t + Fin 2 * MIN_PANEL_WIDTH_PX <=? containerWidth e)%num
     end.

(** The three fields of a parsed value, when they are numbers. *)
Definition hasFields (v : jsval) (l m r : number) : Prop :=
  prop v "left" = JNum l /\ prop v "main" = JNum m /\ prop v "right" = JNum r.

(** ** Further concrete inputs *)

(** The 1000px container showing the wide variant. *)
Definition envWide1000 : Env :=
  {| containerWidth := Fin 1000; hasInputPanel := true; paneType := wide |}.

(** The container of [env1000] once widened to 1200px. *)
Definition env1200 : Env :=
  {| containerWidth := Fin 1200; hasInputPanel := true; paneType := regular |}.

(** * Properties *)

(** ** Rational comparisons as propositions *)

Lemma Qle_bool_false (x y : Q) : Qle_bool x y = false <-> y < x.
Proof.
  split; intros H.
  - apply Qnot_le_lt. intros Hle. apply Qle_bool_iff in Hle. congruence.
  - destruct (Qle_bool x y) eqn:E; [|reflexivity].
    apply Qle_bool_iff in E. apply Qlt_not_le in H. contradiction.
Qed.

Lemma Qeq_bool_false (x y : Q) : Qeq_bool x y = false <-> ~ x == y.
Proof.
  split; intros H.
  - intros Heq. apply Qeq_bool_iff in Heq. congruence.
  - destruct (Qeq_bool x y) eqn:E; [|reflexivity].
    apply Qeq_bool_iff in E. contradiction.
Qed.

(** One rational test of the goal or of a hypothesis is split into its two
    outcomes, each recorded as an inequality. *)
Ltac qstep :=
  match goal with
  | H : context [Qle_bool ?a ?b] |- _ =>
      let E := fresh "E" in destruct (Qle_bool a b) eqn:E;
      [apply Qle_bool_iff in E | apply Qle_bool_false in E]
  | |- context [Qle_bool ?a ?b] =>
      let E := fresh "E" in destruct (Qle_bool a b) eqn:E;
      [apply Qle_bool_iff in E | apply Qle_bool_false in E]
  | H : context [Qeq_bool ?a ?b] |- _ =>
      let E := fresh "E" in destruct (Qeq_bool a b) eqn:E;
      [apply Qeq_bool_iff in E | apply Qeq_bool_false in E]
  | |- context [Qeq_bool ?a ?b] =>
      let E := fresh "E" in destruct (Qeq_bool a b) eqn:E;
      [apply Qeq_bool_iff in E | apply Qeq_bool_false in E]
  end.

Ltac qnorm := cbn in *; unfold Qltb in *; cbn in *.

Ltac qsplit := qnorm; repeat (qstep; qnorm).

(** [lra] after the quotients by a literal have been made products. *)
Ltac qarith := unfold Qdiv in *; cbn [Qinv Qnum Qden] in *; lra.

Ltac qdone :=
  qsplit; try discriminate; try contradiction; try reflexivity; try tauto;
  try qarith.

(** ** Elementary facts on numbers *)

Lemma Math_max_le (a b : number) : (a <=? b)%num = true -> Math_max a b = b.
Proof. destruct a, b; qdone. Qed.

Lemma num_eq_not_gt (a b : number) : (a == b)%num -> (a >? b)%num = false.
Proof. destruct a, b; qdone. Qed.

Lemma num_le_not_gt (a b : number) : (a <=? b)%num = true -> (a >? b)%num = false.
Proof. destruct a, b; qdone. Qed.

Lemma num_lt_not_le (a b : number) : (a <? b)%num = true -> (b <=? a)%num = false.
Proof. destruct a, b; qdone. Qed.

Lemma Math_max_Fin_spec (p s : Q) :
  exists c, Math_max (Fin p) (Fin s) = Fin c /\ p <= c /\ s <= c /\
            (p <= s -> c = s).
Proof.
  cbn. destruct (Qle_bool p s) eqn:E;
    [apply Qle_bool_iff in E | apply Qle_bool_false in E].
  - exists s. repeat split; try lra; reflexivity.
  - exists p. repeat split; try lra.
Qed.

(** ** The guard on the container width *)

(** The guard of the two converters fires exactly when the width is not
    greater than zero: on [NaN], on zero and on every negative width, and on
    no other one ([Infinity] passes it). *)
Lemma widthUnavailable_iff (cw : number) :
  widthUnavailable cw = negb (cw >? Fin 0)%num.
Proof. destruct cw; unfold widthUnavailable; qdone. Qed.

(** With no usable width every pixel measure converts to zero, so the three
    minimums vanish. *)
Lemma minimums_without_width (e : Env) :
  widthUnavailable (containerWidth e) = true ->
  minPanelWidthPercentage e = Fin 0 /\ minMainPanelWidthPercentage e = Fin 0 /\
  minLeft e = Fin 0 /\ minRight e = Fin 0 /\ minMain e = Fin 0.
Proof.
  intros H.
  unfold minLeft, minRight, minMain, minPanelWidthPercentage,
    minMainPanelWidthPercentage, pixelsToPercentage.
  rewrite H. destruct (hasInputPanel e); auto.
Qed.

(** In a container of finite positive width [w], [px] pixels are
    [px / w * 100] percent. *)
Lemma pixelsToPercentage_finite_width (e : Env) (w px : Q) :
  containerWidth e = Fin w -> 0 < w ->
  pixelsToPercentage e (Fin px) = Fin (px / w * 100).
Proof.
  intros Hcw Hw. unfold pixelsToPercentage, widthUnavailable. rewrite Hcw.
  qsplit; try reflexivity; exfalso; lra.
Qed.

Lemma percentage_nonneg (px w : Q) : 0 <= px -> 0 < w -> 0 <= px / w * 100.
Proof.
  intros Hpx Hw.
  assert (Hpos : 0 < / w) by (apply Qinv_lt_0_compat; exact Hw).
  unfold Qdiv. nra.
Qed.

Lemma percentage_le_100 (px w : Q) :
  0 < w -> Qle_bool (px / w * 100) 100 = Qle_bool px w.
Proof.
  intros Hw.
  assert (Hinv : w * / w == 1) by (field; lra).
  assert (Hpos : 0 < / w) by (apply Qinv_lt_0_compat; exact Hw).
  unfold Qdiv. qsplit; try reflexivity; exfalso; nra.
Qed.

(** A non-negative pixel measure converts to a finite, non-negative
    percentage whatever the container width is. *)
Lemma pixelsToPercentage_nonneg (e : Env) (px : Q) :
  0 <= px ->
  exists p, pixelsToPercentage e (Fin px) = Fin p /\ 0 <= p.
Proof.
  intros Hpx.
  destruct (widthUnavailable (containerWidth e)) eqn:G.
  - exists 0. unfold pixelsToPercentage. rewrite G. split; [reflexivity | lra].
  - rewrite widthUnavailable_iff in G. apply negb_false_iff in G.
    destruct (containerWidth e) as [| | |w] eqn:Hcw; try discriminate.
    + exists (0 * 100). unfold pixelsToPercentage, widthUnavailable.
      rewrite Hcw. split; [reflexivity | lra].
    + cbn in G. unfold Qltb in G. apply negb_true_iff, Qle_bool_false in G.
      exists (px / w * 100). split.
      * apply pixelsToPercentage_finite_width; assumption.
      * apply percentage_nonneg; assumption.
Qed.

Lemma minPanelWidthPercentage_nonneg (e : Env) :
  exists p, minPanelWidthPercentage e = Fin p /\ 0 <= p.
Proof. apply pixelsToPercentage_nonneg. discriminate. Qed.

Lemma minMainPanelWidthPercentage_nonneg (e : Env) :
  exists p, minMainPanelWidthPercentage e = Fin p /\ 0 <= p.
Proof. apply pixelsToPercentage_nonneg. discriminate. Qed.

Lemma minLeft_nonneg (e : Env) : exists p, minLeft e = Fin p /\ 0 <= p.
Proof.
  unfold minLeft. destruct (hasInputPanel e).
  - apply minPanelWidthPercentage_nonneg.
  - exists 0. split; [reflexivity | lra].
Qed.

(** ** Unit conversion *)

(** C9, as stated, fails on an infinite container width: [Infinity] is not a
    positive finite number, but it passes the guard
    [!containerWidth.value || containerWidth.value <= 0], and
    [percentageToPixels(50)] is then [50 / 100 * Infinity = Infinity], not
    [0]. *)
Lemma percentageToPixels_infinite_width :
  let e := {| containerWidth := PInf; hasInputPanel := true; paneType := regular |} in
  positiveFinite (containerWidth e) = false /\
  percentageToPixels e (Fin 50) = PInf /\
  percentageToPixels e (Fin 50) <> Fin 0.
Proof. cbv zeta. repeat split. discriminate. Qed.

(** C9 (amended): both converters return [0] exactly when the container width
    is not greater than zero, that is when it is [NaN], zero or negative, and
    the quotient formula for every other width, [Infinity] included.  They
    are total, and neither divides by zero: [pixelsToPercentage] divides by
    the width only when the width is greater than zero, and
    [percentageToPixels] divides by the constant 100. *)
Theorem unit_conversion_guarded (e : Env) (pixels percentage : number) :
  let cw := containerWidth e in
  pixelsToPercentage e pixels
    = (if (cw >? Fin 0)%num then (pixels / cw * Fin 100)%num else Fin 0) /\
  percentageToPixels e percentage
    = (if (cw >? Fin 0)%num then (percentage / Fin 100 * cw)%num else Fin 0) /\
  negb (cw >? Fin 0)%num = Number_isNaN cw || (cw <=? Fin 0)%num /\
  (cw >? Fin 0)%num && num_eqb cw (Fin 0) = false /\
  num_eqb (Fin 100) (Fin 0) = false.
Proof.
  cbv zeta. unfold pixelsToPercentage, percentageToPixels.
  rewrite widthUnavailable_iff.
  destruct (containerWidth e) as [| | |w]; repeat split; try reflexivity;
    try (destruct (Fin w >? Fin 0)%num; reflexivity); qdone.
Qed.

(** ** The normalizer *)

Lemma safePanelWidth_eq (e : Env) (p : NdvPanelsSize) :
  safePanelWidth e p
    = let c := clampedPanelWidth e p in
      if (total c >? Fin 100)%num then
        {| left := Math_max (minLeft e) (left c - trimLeft c)%num;
           main := main c;
           right := Math_max (minRight e) (right c - trimRight c)%num |}
      else c.
Proof. reflexivity. Qed.

(** Sanitizing yields a finite, non-negative value, and changes nothing on
    such a value. *)
Lemma sanitizeValue_spec (v : number) :
  exists s, sanitizeValue v = Fin s /\ 0 <= s.
Proof.
  unfold sanitizeValue. destruct v as [| | |q]; cbn;
    try (exists 0; split; [reflexivity | lra]).
  unfold Qltb. destruct (Qle_bool 0 q) eqn:E; cbn.
  - exists q. split; [reflexivity | apply Qle_bool_iff; exact E].
  - exists 0. split; [reflexivity | lra].
Qed.

Lemma sanitizeValue_id (v : number) :
  Number_isFinite v = true -> (v >=? Fin 0)%num = true -> sanitizeValue v = v.
Proof. unfold sanitizeValue. destruct v; intros; qdone. Qed.

Lemma finiteNonNegative_Fin (a b c : Q) :
  0 <= a -> 0 <= b -> 0 <= c ->
  finiteNonNegative {| left := Fin a; main := Fin b; right := Fin c |}.
Proof.
  intros Ha Hb Hc. unfold finiteNonNegative. cbn.
  repeat split; apply Qle_bool_iff; assumption.
Qed.

(** The clamped allocation: three finite values, each at least its minimum,
    the minimums being finite and non-negative themselves. *)
Lemma clampedPanelWidth_spec (e : Env) (p : NdvPanelsSize) :
  exists cl cm cr pl pm pr,
    clampedPanelWidth e p = {| left := Fin cl; main := Fin cm; right := Fin cr |} /\
    minLeft e = Fin pl /\ minMain e = Fin pm /\ minRight e = Fin pr /\
    0 <= pl <= cl /\ 0 <= pm <= cm /\ 0 <= pr <= cr.
Proof.
  destruct (minLeft_nonneg e) as (pl & Hl & Hl0).
  destruct (minMainPanelWidthPercentage_nonneg e) as (pm & Hm & Hm0).
  destruct (minPanelWidthPercentage_nonneg e) as (pr & Hr & Hr0).
  destruct (sanitizeValue_spec (left p)) as (sl & Esl & Hsl).
  destruct (sanitizeValue_spec (main p)) as (sm & Esm & Hsm).
  destruct (sanitizeValue_spec (right p)) as (sr & Esr & Hsr).
  destruct (Math_max_Fin_spec pl sl) as (cl & Ecl & Hcl & _).
  destruct (Math_max_Fin_spec pm sm) as (cm & Ecm & Hcm & _).
  destruct (Math_max_Fin_spec pr sr) as (cr & Ecr & Hcr & _).
  exists cl, cm, cr, pl, pm, pr.
  unfold clampedPanelWidth, minMain, minRight.
  rewrite Hl, Hm, Hr, Esl, Esm, Esr, Ecl, Ecm, Ecr.
  repeat split; assumption.
Qed.

(** The clamping step leaves an allocation of finite, non-negative fields
    that respect the minimums as it is. *)
Lemma clampedPanelWidth_id (e : Env) (a : NdvPanelsSize) :
  finiteNonNegative a -> respectsMinimums e a -> clampedPanelWidth e a = a.
Proof.
  intros (Fl & Fm & Fr & Nl & Nm & Nr) (Ml & Mm & Mr). unfold clampedPanelWidth.
  rewrite !sanitizeValue_id by assumption.
  rewrite !Math_max_le by assumption.
  destruct a; reflexivity.
Qed.

(** A valid allocation is returned as it is: the part of C2 that holds. *)
Lemma safePanelWidth_valid (e : Env) (a : NdvPanelsSize) :
  validAllocation e a -> safePanelWidth e a = a.
Proof.
  intros (Hfin & Hmin & Hsum).
  unfold safePanelWidth.
  rewrite clampedPanelWidth_id by assumption.
  rewrite (num_eq_not_gt _ _ Hsum). reflexivity.
Qed.

(** The two trims of a finite clamped allocation whose outer panels are not
    both zero: finite, and they add up to the overflow. *)
Lemma trims_spec (cl cm cr : Q) :
  ~ cl + cr == 0 ->
  let c := {| left := Fin cl; main := Fin cm; right := Fin cr |} in
  exists tl tr,
    trimLeft c = Fin tl /\ trimRight c = Fin tr /\
    tl + tr == cl + cm + cr - 100.
Proof.
  intros Hnz. cbv zeta. unfold trimRight, trimLeft, overflow, total.
  cbn [left main right]. cbn.
  apply Qeq_bool_false in Hnz. rewrite Hnz.
  eexists _, _. split; [reflexivity|]. split; [reflexivity|]. cbn. lra.
Qed.

(** With both outer panels at zero the trim is [0 / 0] of the overflow. *)
Lemma trims_degenerate (cl cm cr : Q) :
  0 <= cl -> 0 <= cr -> cl + cr == 0 ->
  let c := {| left := Fin cl; main := Fin cm; right := Fin cr |} in
  trimLeft c = NaN /\ trimRight c = NaN.
Proof.
  intros Hl Hr Hz. cbv zeta. unfold trimRight, trimLeft, overflow, total.
  cbn [left main right]. cbn.
  assert (E1 : Qeq_bool (cl + cr) 0 = true) by (apply Qeq_bool_iff; exact Hz).
  assert (E2 : Qeq_bool cl 0 = true) by (apply Qeq_bool_iff; lra).
  rewrite E1, E2. split; reflexivity.
Qed.

(** C1, as stated, fails on the all-zero candidate it names.  In a 1000px
    container with an input panel the three zeros are raised to the
    minimums (12, 36.8, 12); their sum 60.8 is not above 100, so nothing
    else happens, and the result does not sum to 100. *)
Lemma safePanelWidth_all_zero :
  let r := safePanelWidth env1000 {| left := Fin 0; main := Fin 0; right := Fin 0 |} in
  size_eqb r {| left := Fin 12; main := Fin 36.8; right := Fin 12 |} = true /\
  (total r == Fin 60.8)%num /\
  ~ (total r == Fin 100)%num.
Proof.
  cbv zeta. split; [|split]; try (vm_compute; reflexivity).
  intros H. vm_compute in H. discriminate.
Qed.

(** The four outcomes of [safePanelWidth] on a candidate [p], read off its
    clamped allocation [c]. *)
Lemma safePanelWidth_analysis (e : Env) (p : NdvPanelsSize) :
  let c := clampedPanelWidth e p in
  let r := safePanelWidth e p in
  (degenerate e p = false -> finiteNonNegative r /\ respectsMinimums e r) /\
  (positiveFinite (containerWidth e) = true -> degenerate e p = false) /\
  ((total c <=? Fin 100)%num = true -> r = c /\ (total r <=? Fin 100)%num = true) /\
  ((total c >? Fin 100)%num = true ->
   (minLeft e <=? left c - trimLeft c)%num = true ->
   (minRight e <=? right c - trimRight c)%num = true ->
   (total r == Fin 100)%num) /\
  (degenerate e p = true -> left r = NaN).
Proof.
  cbv zeta. rewrite safePanelWidth_eq. cbv zeta. unfold degenerate.
  destruct (clampedPanelWidth_spec e p)
    as (cl & cm & cr & pl & pm & pr & Hc & Hl & Hm & Hr & Bl & Bm & Br).
  rewrite Hc. unfold respectsMinimums. rewrite Hl, Hm, Hr.
  set (c := {| left := Fin cl; main := Fin cm; right := Fin cr |}).
  assert (Hc_ok : finiteNonNegative c /\
                  ((left c >=? Fin pl)%num = true /\ (main c >=? Fin pm)%num = true /\
                   (right c >=? Fin pr)%num = true)).
  { split; [apply finiteNonNegative_Fin; lra|].
    cbn. repeat split; apply Qle_bool_iff; lra. }
  assert (Htot : total c = Fin (cl + cm + cr)) by reflexivity.
  assert (Hlr : (left c + right c)%num = Fin (cl + cr)) by reflexivity.
  rewrite Htot, Hlr.
  assert (Hover :
    ~ cl + cr == 0 ->
    exists l' r' tl tr,
      trimLeft c = Fin tl /\ trimRight c = Fin tr /\
      tl + tr == cl + cm + cr - 100 /\
      Math_max (Fin pl) (left c - trimLeft c)%num = Fin l' /\
      Math_max (Fin pr) (right c - trimRight c)%num = Fin r' /\
      pl <= l' /\ pr <= r' /\
      (pl <= cl - tl -> l' == cl - tl) /\ (pr <= cr - tr -> r' == cr - tr)).
  { intros Hnz. destruct (trims_spec cl cm cr Hnz) as (tl & tr & Etl & Etr & Hsum).
    fold c in Etl, Etr.
    destruct (Math_max_Fin_spec pl (cl + - tl)) as (l' & El' & Hl1 & Hl2 & Hl3).
    destruct (Math_max_Fin_spec pr (cr + - tr)) as (r' & Er' & Hr1 & Hr2 & Hr3).
    exists l', r', tl, tr. rewrite Etl, Etr.
    repeat split; try assumption.
    - intros H. rewrite Hl3 by lra. lra.
    - intros H. rewrite Hr3 by lra. lra. }
  split; [|split; [|split; [|split]]].
  - (* finite, non-negative, at least the minimums *)
    intros Hdeg. apply andb_false_iff in Hdeg.
    destruct (Fin (cl + cm + cr) >? Fin 100)%num eqn:Hov; [|exact Hc_ok].
    destruct Hdeg as [Hdeg|Hdeg]; [discriminate|].
    cbn in Hdeg. apply Qeq_bool_false in Hdeg.
    destruct (Hover Hdeg)
      as (l' & r' & tl & tr & _ & _ & _ & El & Er & Hl' & Hr' & _).
    rewrite El, Er. split; [apply finiteNonNegative_Fin; lra|].
    cbn. repeat split; apply Qle_bool_iff; lra.
  - (* a positive finite width keeps the right panel above zero *)
    intros Hpos. apply andb_false_iff. right. cbn. apply Qeq_bool_false.
    unfold positiveFinite in Hpos.
    destruct (containerWidth e) as [| | |w] eqn:Hcw; try discriminate.
    cbn in Hpos. unfold Qltb in Hpos. apply negb_true_iff, Qle_bool_false in Hpos.
    unfold minRight, minPanelWidthPercentage, MIN_PANEL_WIDTH_PX in Hr.
    rewrite (pixelsToPercentage_finite_width e w _ Hcw Hpos) in Hr.
    injection Hr as Hr.
    assert (Hinv : 0 < / w) by (apply Qinv_lt_0_compat; exact Hpos).
    assert (0 < pr) by (rewrite <- Hr; unfold Qdiv; nra).
    lra.
  - (* no overflow *)
    intros Hle. rewrite (num_le_not_gt _ _ Hle), Htot.
    split; [reflexivity | exact Hle].
  - (* overflow trimmed without reaching a floor *)
    intros Hov Hfl Hfr. rewrite Hov.
    destruct (Qeq_bool (cl + cr) 0) eqn:Hz;
      [apply Qeq_bool_iff in Hz | apply Qeq_bool_false in Hz].
    + destruct (trims_degenerate cl cm cr) as (Etl & Etr); try lra.
      fold c in Etl, Etr. rewrite Etl in Hfl. discriminate.
    + destruct (Hover Hz)
        as (l' & r' & tl & tr & Etl & Etr & Hsum & El & Er & _ & _ & Hl3 & Hr3).
      rewrite Etl in Hfl. rewrite Etr in Hfr. cbn in Hfl, Hfr.
      apply Qle_bool_iff in Hfl, Hfr.
      rewrite El, Er. unfold total. cbn.
      rewrite Hl3, Hr3 by lra. lra.
  - (* the degenerate candidate *)
    intros Hdeg. apply andb_true_iff in Hdeg. destruct Hdeg as [Hov Hz].
    rewrite Hov. cbn in Hz. apply Qeq_bool_iff in Hz.
    destruct (trims_degenerate cl cm cr) as (Etl & Etr); try lra.
    fold c in Etl. cbn [left]. rewrite Etl. reflexivity.
Qed.

(** C1 (amended): for every candidate triple within range ([NaN],
    [Infinity], negative and all-zero components included, finite components
    at most [candidateBound]) and every container width within range,
    [safePanelWidth] returns three finite, non-negative values, each at
    least its minimum ([minLeft] is the minimum panel width with an input
    panel and [0] without, [minMain] the minimum main width, [minRight] the
    minimum panel width), unless the candidate is degenerate: an overflow
    with both outer panels clamped to zero, which no positive finite
    container width allows.  The values need not sum to 100.  When the
    clamped values sum to at most 100 they are returned as they are, so the
    sum is at most 100 and may stay below it; when they sum to more than 100
    and neither trimmed outer panel falls below its minimum, the result sums
    to 100 (exactly so in rationals, up to rounding in doubles). *)
Theorem safePanelWidth_result (e : Env) (p : NdvPanelsSize) :
  widthInRange (containerWidth e) = true ->
  candidateInRange p = true ->
  let c := clampedPanelWidth e p in
  let r := safePanelWidth e p in
  (degenerate e p = false -> finiteNonNegative r /\ respectsMinimums e r) /\
  (positiveFinite (containerWidth e) = true -> degenerate e p = false) /\
  ((total c <=? Fin 100)%num = true -> r = c /\ (total r <=? Fin 100)%num = true) /\
  ((total c >? Fin 100)%num = true ->
   (minLeft e <=? left c - trimLeft c)%num = true ->
   (minRight e <=? right c - trimRight c)%num = true ->
   (total r == Fin 100)%num).
Proof.
  intros _ _.
  cbv zeta. destruct (safePanelWidth_analysis e p) as (H1 & H2 & H3 & H4 & _).
  exact (conj H1 (conj H2 (conj H3 H4))).
Qed.

(** What the amended C1 leaves out.  When a trimmed outer panel falls below
    its minimum it is raised again and nothing else gives way: the
    candidate (0, 100, 0) of the repository's test "prevents main panel from
    taking 100% width" comes back as (12, 100, 12), with sum 124 and [main]
    still 100. *)
Lemma safePanelWidth_floors_over_100 :
  let r := safePanelWidth env1000 {| left := Fin 0; main := Fin 100; right := Fin 0 |} in
  size_eqb r {| left := Fin 12; main := Fin 100; right := Fin 12 |} = true /\
  (total r == Fin 124)%num.
Proof. cbv zeta. split; vm_compute; reflexivity. Qed.

(** The degenerate candidate: with no container width all minimums are 0,
    (0, 150, 0) overflows with [left + right = 0], the trim is [0 / 0 * 50],
    and [left] and [right] come back as [NaN]. *)
Lemma safePanelWidth_zero_over_zero :
  degenerate env0 {| left := Fin 0; main := Fin 150; right := Fin 0 |} = true /\
  safePanelWidth env0 {| left := Fin 0; main := Fin 150; right := Fin 0 |}
    = {| left := NaN; main := Fin 150; right := NaN |}.
Proof. split; vm_compute; reflexivity. Qed.

(** C2 at the failing input: [safePanelWidth] is not idempotent when a
    trimmed panel is raised back to its minimum.  In a 1000px container with
    an input panel the candidate (20, 50, 80), which [loadPanelSize] accepts
    from the store, overflows by 50; the proportional trim takes [left] to
    10, which is raised to its minimum 12 with nothing else giving way, and
    [right] to 40, so the first pass returns (12, 50, 40), with sum 102.  A
    second pass trims the new overflow 2 and returns (12, 50, 500/13): the
    right panel loses another 1.54 points. *)
Lemma safePanelWidth_second_pass :
  let x := {| left := Fin 20; main := Fin 50; right := Fin 80 |} in
  size_eqb (safePanelWidth env1000 x)
    {| left := Fin 12; main := Fin 50; right := Fin 40 |} = true /\
  size_eqb (safePanelWidth env1000 (safePanelWidth env1000 x))
    {| left := Fin 12; main := Fin 50; right := Fin (500 # 13) |} = true /\
  size_eqb (safePanelWidth env1000 (safePanelWidth env1000 x))
    (safePanelWidth env1000 x) = false.
Proof. cbv zeta. split; [|split]; vm_compute; reflexivity. Qed.

(** A sum that compares with 100 has no [NaN] in it. *)
Lemma total_le_left_not_NaN (p : NdvPanelsSize) (b : number) :
  (total p <=? b)%num = true -> left p <> NaN.
Proof.
  unfold total. destruct p as [l m r]. cbn [left main right].
  intros H ->. discriminate.
Qed.

(** Where a second pass changes nothing: on every candidate [x] whose
    first result does not sum to more than 100 (container width,
    [hasInputPanel] and the minimums held fixed), and in particular on an
    already-valid allocation, which is returned unchanged. *)
Theorem safePanelWidth_idempotent (e : Env) (x : NdvPanelsSize) :
  ((total (safePanelWidth e x) <=? Fin 100)%num = true ->
   safePanelWidth e (safePanelWidth e x) = safePanelWidth e x) /\
  (validAllocation e x ->
   safePanelWidth e x = x /\
   safePanelWidth e (safePanelWidth e x) = safePanelWidth e x).
Proof.
  split.
  - intros Hle.
    destruct (safePanelWidth_analysis e x) as (Hwf & _ & _ & _ & Hdeg).
    destruct (degenerate e x) eqn:D.
    + exfalso. exact (total_le_left_not_NaN _ _ Hle (Hdeg eq_refl)).
    + destruct (Hwf eq_refl) as (Hfin & Hmin).
      unfold safePanelWidth at 1.
      rewrite clampedPanelWidth_id by assumption.
      rewrite (num_le_not_gt _ _ Hle). reflexivity.
  - intros Hv. pose proof (safePanelWidth_valid e x Hv) as Hid.
    split; [exact Hid|]. rewrite !Hid. reflexivity.
Qed.

(** ** Edge resize *)

(** C3, as stated, fails without an input panel.  Container 1000px wide (the
    minimum panel width is 12%), no input panel, allocation (20, 40, 40), left
    edge dragged to a main width of 500px: the left panel would keep 10%,
    which is above the floor 0 of the claim, so the claim commits
    (10, 50, 40); [onResize] compares with 12% and leaves (20, 40, 40). *)
Lemma onResize_left_without_input_panel :
  let e := {| containerWidth := Fin 1000; hasInputPanel := false; paneType := regular |} in
  let st := stateOf {| left := Fin 20; main := Fin 40; right := Fin 40 |} ∅ in
  let event := {| width := Fin 500; direction := "left" |} in
  onResize e event st = st /\
  size_eqb (panelWidthPercentage (resizeLeftTo (minLeftPercentage e) e (Fin 500) st))
           {| left := Fin 10; main := Fin 50; right := Fin 40 |} = true /\
  size_eqb (panelWidthPercentage (resizeLeftTo (minLeftPercentage e) e (Fin 500) st))
           (panelWidthPercentage (onResize e event st)) = false.
Proof. cbv zeta. split; [|split]; vm_compute; reflexivity. Qed.

(** C3 (amended): for every allocation and every resize event of direction
    ['left'], with [newMain = max(minMainPercentage, toPercentage(width))] and
    [potentialLeft = currentLeft - (newMain - currentMain)]: when
    [potentialLeft] is below the minimum panel width as a percentage, with or
    without an input panel, [onResize] leaves the state unchanged; otherwise
    it commits [safePanelWidth] of [{left: max(minimum panel width,
    potentialLeft), main: newMain, right: currentRight}].  With an input
    panel that floor is the [minLeftPercentage] of the specification;
    without one [minLeftPercentage] is [0] and [onResize] does not use it. *)
Theorem onResize_left (e : Env) (w : number) (st : NdvState) :
  onResize e {| width := w; direction := "left" |} st
    = resizeLeftTo (minPanelWidthPercentage e) e w st /\
  (if hasInputPanel e
   then minLeftPercentage e = minPanelWidthPercentage e
   else minLeftPercentage e = Fin 0).
Proof.
  split.
  - reflexivity.
  - unfold minLeftPercentage, minLeft. destruct (hasInputPanel e); reflexivity.
Qed.

(** ** Divider drag *)

(** [onDrag] rejects exactly on its own sum, the one over the minimum panel
    width. *)
Lemma onDrag_eq (e : Env) (position : XYPosition) (st : NdvState) :
  onDrag e position st
    = if (dragTotal (minPanelWidthPercentage e) e position st >? Fin 100)%num
      then st
      else
        let current := panelWidthPercentage st in
        let newLeft :=
          Math_max (minPanelWidthPercentage e)
            (pixelsToPercentage e (fst position) - main current / Fin 2)%num in
        let newRight :=
          Math_max (minPanelWidthPercentage e) (Fin 100 - newLeft - main current)%num in
        let sanitized :=
          safePanelWidth e
            {| left := newLeft; main := main current; right := newRight |} in
        setPanelWidth st
          {| left := left sanitized; main := main current; right := right sanitized |}.
Proof. reflexivity. Qed.

(** C4: [onDrag] never changes [main]: whatever the pointer position and the
    current allocation, [main] after the call is [main] before it, and so is
    the store; only [left] and [right] may differ. *)
Theorem onDrag_keeps_main (e : Env) (position : XYPosition) (st : NdvState) :
  main (panelWidthPercentage (onDrag e position st)) = main (panelWidthPercentage st) /\
  localStorage (onDrag e position st) = localStorage st.
Proof.
  rewrite onDrag_eq.
  destruct (dragTotal (minPanelWidthPercentage e) e position st >? Fin 100)%num;
    split; reflexivity.
Qed.



(** With all minimums at zero, the candidate [left] of a drag is [0] and
    the candidate [right] is [100 - main]. *)
Lemma drag_candidates_without_width (m : Q) :
  0 <= m -> m <= 100 ->
  exists l r,
    Math_max (Fin 0) (Fin 0 - Fin m / Fin 2)%num = Fin l /\
    Math_max (Fin 0) (Fin 100 - Fin l - Fin m)%num = Fin r /\
    l == 0 /\ r == 100 - m.
Proof.
  intros H0 H100.
  change (Fin 0 - Fin m / Fin 2)%num with (Fin (0 + - (m / 2))).
  unfold Math_max at 1.
  destruct (Qle_bool 0 (0 + - (m / 2))) eqn:E;
    [apply Qle_bool_iff in E | apply Qle_bool_false in E];
    eexists _, _; (split; [reflexivity|]);
    match goal with
    | |- Math_max _ (Fin 100 - Fin ?l - _)%num = _ /\ _ =>
        change (Fin 100 - Fin l - Fin m)%num with (Fin (100 + - l + - m));
        unfold Math_max;
        destruct (Qle_bool 0 (100 + - l + - m)) eqn:E';
        [apply Qle_bool_iff in E' | apply Qle_bool_false in E']
    end;
    try (split; [reflexivity|split; qarith]);
    exfalso; qarith.
Qed.

(** C10: while the container width is zero or unknown, every converted
    minimum is [0], and a drag at any pointer position, from any allocation
    whose [main] is finite with [0 <= main <= 100], is not rejected: it
    commits [left = 0] and [right = 100 - main] and keeps [main].  The left
    panel collapses wherever the pointer is ([left] and [right] of the
    current allocation are not even read). *)
Theorem onDrag_without_width (e : Env) (position : XYPosition) (st : NdvState) :
  let current := panelWidthPercentage st in
  widthUnavailable (containerWidth e) = true ->
  Number_isFinite (main current) = true ->
  (main current >=? Fin 0)%num = true ->
  (main current <=? Fin 100)%num = true ->
  let after := panelWidthPercentage (onDrag e position st) in
  (dragTotal (minPanelWidthPercentage e) e position st >? Fin 100)%num = false /\
  (left after == Fin 0)%num /\
  main after = main current /\
  (right after == Fin 100 - main current)%num.
Proof.
  cbv zeta. intros G Hfin H0 H100.
  destruct (minimums_without_width e G) as (Hp & Hm & Hl & Hr & Hmm).
  destruct (main (panelWidthPercentage st)) as [| | |m] eqn:Hmain; try discriminate.
  cbn in H0, H100. apply Qle_bool_iff in H0, H100.
  destruct (drag_candidates_without_width m H0 H100) as (l & r & El & Er & Hl0 & Hr0).
  assert (Hover : (dragTotal (minPanelWidthPercentage e) e position st >? Fin 100)%num
                  = false).
  { unfold dragTotal, minRight, pixelsToPercentage. rewrite G, Hp, Hmain, El, Er.
    cbn. unfold Qltb. apply negb_false_iff, Qle_bool_iff. lra. }
  split; [exact Hover|].
  rewrite onDrag_eq, Hover. cbv zeta.
  unfold pixelsToPercentage. rewrite G, Hp, Hmain, El, Er.
  rewrite safePanelWidth_valid.
  - cbn. repeat split; qarith.
  - unfold validAllocation, finiteNonNegative, respectsMinimums, total.
    rewrite Hl, Hr, Hmm. cbn.
    repeat split; try (apply Qle_bool_iff); qarith.
Qed.

(** ** Persistence *)

Lemma structurallyInvalid_isValid (v : jsval) :
  structurallyInvalid v -> isValid v = false.
Proof.
  unfold structurallyInvalid, isValid, num_ge, num_gt.
  intros [H|[H|[H|[H|[H|[H|H]]]]]];
    try apply num_lt_not_le in H; rewrite H;
    rewrite ?andb_false_r; reflexivity.
Qed.

Lemma js_to_size_to_js (p : NdvPanelsSize) : js_to_size (size_to_js p) = p.
Proof. destruct p; reflexivity. Qed.

Lemma size_to_js_truthy (p : NdvPanelsSize) : js_truthy (size_to_js p) = true.
Proof. reflexivity. Qed.

(** What [JSON.stringify] writes for an allocation of finite numbers is
    read back as the same three numbers. *)
Lemma parse_stringify_finite (p : NdvPanelsSize) :
  Number_isFinite (left p) = true ->
  Number_isFinite (main p) = true ->
  Number_isFinite (right p) = true ->
  JSON_parse (JSON_stringify p) = Some (size_to_js p).
Proof.
  destruct p as [l m r]. cbn. unfold json_number. intros -> -> ->. reflexivity.
Qed.

(** A valid allocation passes the validity test of [loadPanelSize]. *)
Lemma validAllocation_isValid (e : Env) (a : NdvPanelsSize) :
  validAllocation e a -> isValid (size_to_js a) = true.
Proof.
  intros ((Fl & Fm & Fr & Nl & Nm & Nr) & _ & Hsum).
  destruct a as [[| | |l] [| | |m] [| | |r]]; try discriminate.
  unfold isValid, total in *. qsplit; try reflexivity; try discriminate; qarith.
Qed.

(** A stored value that parses and fails the validity test: the key is
    deleted and the default allocation is normalized. *)
Lemma loadPanelSize_rejected (prefix : string) (e : Env) (st : NdvState) (v : jsval) :
  localStorage st !! localStorageKey prefix e = Some (JsonText v) ->
  isValid v = false ->
  loadPanelSize prefix e st
    = {| panelWidthPercentage := safePanelWidth e (defaultPanelSize e);
         localStorage := delete (localStorageKey prefix e) (localStorage st) |}.
Proof.
  intros Hget Hbad. unfold loadPanelSize, jsonParse. rewrite Hget.
  cbn [text_truthy JSON_parse]. rewrite Hbad, andb_false_r. reflexivity.
Qed.

(** A load that finds what [JSON.stringify] wrote for an allocation of
    finite numbers passing the validity test normalizes that allocation. *)
Lemma loadPanelSize_stringified (prefix : string) (e : Env) (st : NdvState)
    (a : NdvPanelsSize) :
  localStorage st !! localStorageKey prefix e = Some (JSON_stringify a) ->
  Number_isFinite (left a) = true ->
  Number_isFinite (main a) = true ->
  Number_isFinite (right a) = true ->
  isValid (size_to_js a) = true ->
  loadPanelSize prefix e st
    = {| panelWidthPercentage := safePanelWidth e a; localStorage := localStorage st |}.
Proof.
  intros Hget Fl Fm Fr Hok.
  unfold loadPanelSize, jsonParse. rewrite Hget.
  rewrite (parse_stringify_finite _ Fl Fm Fr).
  cbn [text_truthy JSON_stringify]. rewrite size_to_js_truthy, Hok.
  cbn [andb]. rewrite js_to_size_to_js. reflexivity.
Qed.




(** C7: a stored value that parses but is structurally invalid (a field
    that is not a finite number, a negative field, or a sum above 200) is
    deleted from the store, and the allocation becomes [safePanelWidth] of
    the default allocation of the variant. *)
Theorem load_invalid_clears (prefix : string) (e : Env) (st : NdvState) (v : jsval) :
  localStorage st !! localStorageKey prefix e = Some (JsonText v) ->
  structurallyInvalid v ->
  localStorage (loadPanelSize prefix e st) !! localStorageKey prefix e = None /\
  localStorage (loadPanelSize prefix e st)
    = delete (localStorageKey prefix e) (localStorage st) /\
  panelWidthPercentage (loadPanelSize prefix e st)
    = safePanelWidth e (defaultPanelSize e).
Proof.
  intros Hget Hbad. apply structurallyInvalid_isValid in Hbad.
  unfold loadPanelSize, jsonParse in *. rewrite Hget.
  cbn [text_truthy JSON_parse]. rewrite Hbad, andb_false_r.
  cbn [localStorage panelWidthPercentage].
  rewrite lookup_delete_eq. repeat split.
Qed.

(** The default allocation of a centred variant, and of the inputless one,
    passes the validity test exactly when its [main] is at most 100. *)
Lemma isValid_centered (mm : Q) :
  0 <= mm ->
  isValid (size_to_js {| left := (Fin 100 - Fin mm) / Fin 2; main := Fin mm;
                         right := (Fin 100 - Fin mm) / Fin 2 |}%num)
    = Qle_bool mm 100.
Proof. intros H. unfold isValid. qsplit; try reflexivity; exfalso; qarith. Qed.

Lemma isValid_inputless (mm : Q) :
  0 <= mm ->
  isValid (size_to_js {| left := Fin 0; main := Fin mm;
                         right := (Fin 100 - Fin mm) |}%num)
    = Qle_bool mm 100.
Proof. intros H. unfold isValid. qsplit; try reflexivity; exfalso; qarith. Qed.

(** The default allocation passes the validity test of [loadPanelSize]
    exactly when the container width is unknown or at least the default
    width of the main panel: in a narrower container the outer panels of the
    default allocation are negative. *)
Lemma defaultPanelSize_isValid (e : Env) :
  isValid (size_to_js (defaultPanelSize e))
    = widthUnavailable (containerWidth e)
      || (defaultMainWidthPx (paneType e) <=? containerWidth e)%num.
Proof.
  unfold defaultPanelSize.
  destruct (widthUnavailable (containerWidth e)) eqn:G.
  - destruct (paneType e); reflexivity.
  - destruct (containerWidth e) as [| | |w] eqn:Hcw; try discriminate.
    + unfold pixelsToPercentage. rewrite Hcw.
      destruct (paneType e); reflexivity.
    + assert (Hw : 0 < w).
      { rewrite widthUnavailable_iff in G. apply negb_false_iff in G.
        cbn in G. unfold Qltb in G. apply negb_true_iff, Qle_bool_false in G.
        exact G. }
      destruct (paneType e); cbv zeta;
        unfold DEFAULT_INPUTLESS_MAIN_WIDTH_PX, DEFAULT_WIDE_MAIN_WIDTH_PX,
          DEFAULT_REGULAR_MAIN_WIDTH_PX, defaultMainWidthPx;
        rewrite (pixelsToPercentage_finite_width e w _ Hcw Hw);
        (rewrite isValid_centered || rewrite isValid_inputless);
        try (apply percentage_nonneg; lra);
        rewrite percentage_le_100 by exact Hw; reflexivity.
Qed.

(** [loadPanelSize] on a stored string that does not parse: [jsonParse]
    hands back the default allocation, which is then validated like a stored
    one. *)
Lemma loadPanelSize_unparseable (prefix : string) (e : Env) (st : NdvState)
    (s : string) :
  localStorage st !! localStorageKey prefix e = Some (OtherText s) ->
  loadPanelSize prefix e st
    = {| panelWidthPercentage := safePanelWidth e (defaultPanelSize e);
         localStorage :=
           if String.eqb s EmptyString || isValid (size_to_js (defaultPanelSize e))
           then localStorage st
           else delete (localStorageKey prefix e) (localStorage st) |}.
Proof.
  intros Hget.
  unfold loadPanelSize, jsonParse in *. rewrite Hget.
  cbn [text_truthy JSON_parse]. rewrite size_to_js_truthy.
  destruct (String.eqb s EmptyString); cbn [negb orb andb].
  - reflexivity.
  - destruct (isValid (size_to_js (defaultPanelSize e)));
      rewrite ?js_to_size_to_js; reflexivity.
Qed.

(** C8, as stated, fails in a narrow container.  Container 300px wide,
    variant [regular]: the default allocation is (-20, 140, -20), which the
    validity test rejects, so a stored string that does not parse is deleted
    like structurally invalid data. *)
Lemma load_unparseable_narrow_container :
  let e := {| containerWidth := Fin 300; hasInputPanel := true; paneType := regular |} in
  let k := localStorageKey "N8N_NDV_PANEL_WIDTH" e in
  let st := stateOf initialPanelWidthPercentage {[ k := OtherText "{left:" ]} in
  localStorage st !! k = Some (OtherText "{left:") /\
  JSON_parse (OtherText "{left:") = None /\
  size_eqb (defaultPanelSize e)
    {| left := Fin (-20); main := Fin 140; right := Fin (-20) |} = true /\
  localStorage (loadPanelSize "N8N_NDV_PANEL_WIDTH" e st) !! k = None.
Proof.
  cbv zeta. split; [apply lookup_singleton_eq|]. split; [reflexivity|].
  split; [vm_compute; reflexivity|].
  rewrite (loadPanelSize_unparseable _ _ _ "{left:") by apply lookup_singleton_eq.
  cbn [localStorage stateOf]. rewrite defaultPanelSize_isValid.
  cbn [orb String.eqb Ascii.eqb Bool.eqb containerWidth paneType].
  change (widthUnavailable (Fin 300)
          || (defaultMainWidthPx regular <=? Fin 300)%num) with false.
  apply lookup_delete_eq.
Qed.

(** C8 (amended): a stored string that fails to parse is answered with
    [safePanelWidth] of the default allocation.  The key stays in place when
    the string is empty, when the container width is unknown, or when the
    container is at least as wide as the default main panel of the variant
    (the default allocation, which [jsonParse] hands back, then passes the
    validity test); in a narrower container the key is deleted. *)
Theorem load_unparseable (prefix : string) (e : Env) (st : NdvState) (s : string) :
  localStorage st !! localStorageKey prefix e = Some (OtherText s) ->
  panelWidthPercentage (loadPanelSize prefix e st)
    = safePanelWidth e (defaultPanelSize e) /\
  localStorage (loadPanelSize prefix e st)
    = (if String.eqb s EmptyString
          || widthUnavailable (containerWidth e)
          || (defaultMainWidthPx (paneType e) <=? containerWidth e)%num
       then localStorage st
       else delete (localStorageKey prefix e) (localStorage st)).
Proof.
  intros Hget. rewrite (loadPanelSize_unparseable _ _ _ _ Hget).
  cbn [panelWidthPercentage localStorage].
  rewrite defaultPanelSize_isValid, orb_assoc. split; reflexivity.
Qed.

(** ** The theorems with a hypothesis, at concrete inputs *)

(** C1 in the 1000px container: the all-zero candidate is not degenerate,
    comes back as the three minimums, finite and non-negative, with a sum of
    at most 100; the candidate (50, 50, 50) overflows, is trimmed to
    (25, 50, 25) without reaching a floor, and sums to 100. *)
Lemma safePanelWidth_result_witness :
  let zero := {| left := Fin 0; main := Fin 0; right := Fin 0 |} in
  let fifty := {| left := Fin 50; main := Fin 50; right := Fin 50 |} in
  (widthInRange (containerWidth env1000) = true /\
   candidateInRange zero = true /\ candidateInRange fifty = true) /\
  (finiteNonNegative (safePanelWidth env1000 zero) /\
   respectsMinimums env1000 (safePanelWidth env1000 zero)) /\
  (safePanelWidth env1000 zero = clampedPanelWidth env1000 zero /\
   (total (safePanelWidth env1000 zero) <=? Fin 100)%num = true) /\
  (total (safePanelWidth env1000 fifty) == Fin 100)%num.
Proof.
  cbv zeta.
  destruct (safePanelWidth_result env1000
              {| left := Fin 0; main := Fin 0; right := Fin 0 |} eq_refl eq_refl)
    as (Hfin & Hpos & Hle & _).
  destruct (safePanelWidth_result env1000
              {| left := Fin 50; main := Fin 50; right := Fin 50 |} eq_refl eq_refl)
    as (_ & _ & _ & Hsum).
  split; [repeat split|].
  split; [exact (Hfin (Hpos eq_refl))|].
  split; [apply Hle; vm_compute; reflexivity|].
  apply Hsum; vm_compute; reflexivity.
Defined.

(** A second pass at the candidate (50, 50, 50) in the 1000px container,
    whose first pass returns (25, 50, 25) with sum 100, and at the valid
    allocation (30, 40, 30). *)
Lemma safePanelWidth_idempotent_witness :
  let x := {| left := Fin 50; main := Fin 50; right := Fin 50 |} in
  let a := {| left := Fin 30; main := Fin 40; right := Fin 30 |} in
  ((total (safePanelWidth env1000 x) <=? Fin 100)%num = true /\
   safePanelWidth env1000 (safePanelWidth env1000 x) = safePanelWidth env1000 x) /\
  (validAllocation env1000 a /\ safePanelWidth env1000 a = a).
Proof.
  cbv zeta.
  assert (H : (total (safePanelWidth env1000
                        {| left := Fin 50; main := Fin 50; right := Fin 50 |})
               <=? Fin 100)%num = true) by (vm_compute; reflexivity).
  assert (Hv : validAllocation env1000
                 {| left := Fin 30; main := Fin 40; right := Fin 30 |})
    by (repeat split; vm_compute; reflexivity).
  split; split.
  - exact H.
  - exact (proj1 (safePanelWidth_idempotent env1000 _) H).
  - exact Hv.
  - exact (proj1 (proj2 (safePanelWidth_idempotent env1000 _) Hv)).
Defined.


(** C10 at a drag to 300px while the width is still 0, from the fallback
    allocation (32.5, 35, 32.5). *)
Lemma onDrag_without_width_witness :
  let st := stateOf {| left := Fin 32.5; main := Fin 35; right := Fin 32.5 |} ∅ in
  let after := panelWidthPercentage (onDrag env0 (Fin 300, Fin 0) st) in
  (widthUnavailable (containerWidth env0) = true /\
   Number_isFinite (Fin 35) = true /\
   (Fin 35 >=? Fin 0)%num = true /\
   (Fin 35 <=? Fin 100)%num = true) /\
  (left after == Fin 0)%num /\
  main after = Fin 35 /\
  (right after == Fin 100 - Fin 35)%num.
Proof.
  cbv zeta. split; [repeat split|].
  exact (proj2 (onDrag_without_width env0 (Fin 300, Fin 0)
                  (stateOf {| left := Fin 32.5; main := Fin 35; right := Fin 32.5 |} ∅)
                  eq_refl eq_refl eq_refl eq_refl)).
Defined.


(** C7 at the stored value [{"left":null,"main":40,"right":30}], which is
    what [JSON.stringify] writes for a [left] that is not finite. *)
Lemma load_invalid_clears_witness :
  let k := localStorageKey "N8N_NDV_PANEL_WIDTH" env1000 in
  let v := JObj [("left"%string, JNull); ("main"%string, JNum (Fin 40));
                 ("right"%string, JNum (Fin 30))] in
  let st := stateOf initialPanelWidthPercentage {[ k := JsonText v ]} in
  (localStorage st !! k = Some (JsonText v) /\ structurallyInvalid v) /\
  localStorage (loadPanelSize "N8N_NDV_PANEL_WIDTH" env1000 st) !! k = None /\
  panelWidthPercentage (loadPanelSize "N8N_NDV_PANEL_WIDTH" env1000 st)
    = safePanelWidth env1000 (defaultPanelSize env1000).
Proof.
  cbv zeta.
  split; [split; [apply lookup_singleton_eq | left; reflexivity]|].
  pose proof (load_invalid_clears "N8N_NDV_PANEL_WIDTH" env1000
                (stateOf initialPanelWidthPercentage
                   {[ localStorageKey "N8N_NDV_PANEL_WIDTH" env1000
                      := JsonText (JObj [("left"%string, JNull);
                                         ("main"%string, JNum (Fin 40));
                                         ("right"%string, JNum (Fin 30))]) ]})
                _ (lookup_singleton_eq _ _) (or_introl eq_refl)) as (H1 & _ & H3).
  split; [exact H1 | exact H3].
Defined.

(** C8 at the stored string ["{left:"] in the 1000px container: the default
    allocation (29, 42, 29) is valid and the key stays. *)
Lemma load_unparseable_witness :
  let k := localStorageKey "N8N_NDV_PANEL_WIDTH" env1000 in
  let st := stateOf initialPanelWidthPercentage {[ k := OtherText "{left:" ]} in
  localStorage st !! k = Some (OtherText "{left:") /\
  panelWidthPercentage (loadPanelSize "N8N_NDV_PANEL_WIDTH" env1000 st)
    = safePanelWidth env1000 (defaultPanelSize env1000) /\
  localStorage (loadPanelSize "N8N_NDV_PANEL_WIDTH" env1000 st) = localStorage st.
Proof.
  cbv zeta. split; [apply lookup_singleton_eq|].
  exact (load_unparseable "N8N_NDV_PANEL_WIDTH" env1000
           (stateOf initialPanelWidthPercentage
              {[ localStorageKey "N8N_NDV_PANEL_WIDTH" env1000 := OtherText "{left:" ]})
           "{left:" (lookup_singleton_eq _ _)).
Defined.

(** * Further properties *)

(** ** Shapes of valid allocations *)

Lemma minLeft_le_minPanel (e : Env) (pl pp : Q) :
  minLeft e = Fin pl -> minPanelWidthPercentage e = Fin pp -> 0 <= pp -> 0 <= pl <= pp.
Proof.
  unfold minLeft. destruct (hasInputPanel e); intros Hl Hp H0.
  - rewrite Hp in Hl. injection Hl as <-. lra.
  - injection Hl as <-. lra.
Qed.

(** A valid allocation is three rationals within the bounds. *)
Lemma validAllocation_inv (e : Env) (a : NdvPanelsSize) :
  validAllocation e a ->
  exists l m r pl pm pp,
    a = {| left := Fin l; main := Fin m; right := Fin r |} /\
    minLeft e = Fin pl /\ minMainPanelWidthPercentage e = Fin pm /\
    minPanelWidthPercentage e = Fin pp /\
    0 <= pl <= pp /\ 0 <= pm /\ pl <= l /\ pm <= m /\ pp <= r /\
    l + m + r == 100.
Proof.
  intros ((Fl & Fm & Fr & Nl & Nm & Nr) & (Ml & Mm & Mr) & Hsum).
  destruct (minLeft_nonneg e) as (pl & Hl & Hl0).
  destruct (minMainPanelWidthPercentage_nonneg e) as (pm & Hm & Hm0).
  destruct (minPanelWidthPercentage_nonneg e) as (pp & Hp & Hp0).
  pose proof (minLeft_le_minPanel e pl pp Hl Hp Hp0) as Hlp.
  unfold minMain, minRight in *. rewrite Hl in Ml. rewrite Hm in Mm. rewrite Hp in Mr.
  destruct a as [[| | |l] [| | |m] [| | |r]]; try discriminate.
  exists l, m, r, pl, pm, pp. unfold total in Hsum. cbn in *.
  apply Qle_bool_iff in Ml, Mm, Mr.
  repeat split; try assumption; lra.
Qed.

Lemma validAllocation_Fin (e : Env) (l m r pl pm pp : Q) :
  minLeft e = Fin pl -> minMainPanelWidthPercentage e = Fin pm ->
  minPanelWidthPercentage e = Fin pp ->
  0 <= pl -> 0 <= pm -> 0 <= pp ->
  pl <= l -> pm <= m -> pp <= r -> l + m + r == 100 ->
  validAllocation e {| left := Fin l; main := Fin m; right := Fin r |}.
Proof.
  intros Hl Hm Hp H0l H0m H0p Bl Bm Br Hsum.
  unfold validAllocation, respectsMinimums, minMain, minRight.
  rewrite Hl, Hm, Hp. split; [apply finiteNonNegative_Fin; lra|].
  split; [|exact Hsum].
  cbn. repeat split; apply Qle_bool_iff; assumption.
Qed.

(** ** Default allocation *)

(** X1: whatever the variant, for every container width within range (not
    usable, or at least one pixel) the default allocation has three finite
    fields that sum to 100 (exactly so in rationals, up to rounding in
    doubles); the inputless variant has no left panel, and every other
    variant is centred ([left = right]). *)
Theorem defaultPanelSize_sums_to_100 (e : Env) :
  widthInRange (containerWidth e) = true ->
  let d := defaultPanelSize e in
  Number_isFinite (left d) = true /\ Number_isFinite (main d) = true /\
  Number_isFinite (right d) = true /\
  (total d == Fin 100)%num /\
  match paneType e with
  | inputless => left d = Fin 0
  | _ => left d = right d
  end.
Proof.
  intros _.
  cbv zeta. unfold defaultPanelSize.
  destruct (widthUnavailable (containerWidth e)).
  - destruct (paneType e); repeat split; vm_compute; reflexivity.
  - destruct (pixelsToPercentage_nonneg e 480) as (p1 & E1 & _); [lra|].
    destruct (pixelsToPercentage_nonneg e 640) as (p2 & E2 & _); [lra|].
    destruct (pixelsToPercentage_nonneg e 420) as (p3 & E3 & _); [lra|].
    unfold DEFAULT_INPUTLESS_MAIN_WIDTH_PX, DEFAULT_WIDE_MAIN_WIDTH_PX,
      DEFAULT_REGULAR_MAIN_WIDTH_PX.
    destruct (paneType e); cbv zeta; rewrite ?E1, ?E2, ?E3;
      match goal with
      | |- context [((Fin 100 - Fin ?p) / Fin 2)%num] =>
          change ((Fin 100 - Fin p) / Fin 2)%num with (Fin ((100 + - p) / 2))
      | _ => idtac
      end;
      unfold total; cbn; repeat split; qarith.
Qed.

(** X2: in a container with room for it, the default allocation already
    meets every invariant, so the normalizer returns it as it is, and a load
    that finds nothing stored opens the panel at exactly the default
    allocation without touching the store. *)
Theorem default_opens_as_is (prefix : string) (e : Env) (st : NdvState) :
  defaultFits e = true ->
  validAllocation e (defaultPanelSize e) /\
  safePanelWidth e (defaultPanelSize e) = defaultPanelSize e /\
  (localStorage st !! localStorageKey prefix e = None ->
   loadPanelSize prefix e st
     = {| panelWidthPercentage := defaultPanelSize e;
          localStorage := localStorage st |}).
Proof.
  intros Hfit.
  assert (Hv : validAllocation e (defaultPanelSize e)).
  { unfold defaultFits in Hfit. unfold defaultPanelSize.
    destruct (widthUnavailable (containerWidth e)) eqn:G.
    - destruct (minimums_without_width e G) as (Hp & Hm & Hl & _).
      destruct (paneType e);
        apply (validAllocation_Fin e _ _ _ 0 0 0); try assumption; lra.
    - cbn [orb] in Hfit.
      destruct (containerWidth e) as [| | |w] eqn:Hcw;
        try (destruct (paneType e); try apply andb_true_iff in Hfit;
             try destruct Hfit; discriminate).
      + (* an infinite width: every minimum is 0 *)
        assert (Hp : minPanelWidthPercentage e = Fin (0 * 100))
          by (unfold minPanelWidthPercentage, pixelsToPercentage; rewrite Hcw; reflexivity).
        assert (Hm : minMainPanelWidthPercentage e = Fin (0 * 100))
          by (unfold minMainPanelWidthPercentage, pixelsToPercentage; rewrite Hcw; reflexivity).
        destruct (minLeft_nonneg e) as (pl & Hl & Hl0).
        pose proof (minLeft_le_minPanel e pl _ Hl Hp ltac:(lra)) as Hlp.
        unfold pixelsToPercentage. rewrite Hcw.
        destruct (paneType e);
          match goal with
          | |- validAllocation _ {| left := ?a; main := ?b; right := ?c |} =>
              let a' := eval vm_compute in a in
              let b' := eval vm_compute in b in
              let c' := eval vm_compute in c in
              change a with a'; change b with b'; change c with c'
          end;
          apply (validAllocation_Fin e _ _ _ pl (0 * 100) (0 * 100));
          try assumption; try lra; try reflexivity.
      + assert (Hw : 0 < w).
        { rewrite widthUnavailable_iff in G. apply negb_false_iff in G.
          cbn in G. unfold Qltb in G. apply negb_true_iff, Qle_bool_false in G.
          exact G. }
        assert (Hinv : w * / w == 1) by (field; lra).
        assert (Hpos : 0 < / w) by (apply Qinv_lt_0_compat; exact Hw).
        assert (Hp : minPanelWidthPercentage e = Fin (120 / w * 100))
          by (apply pixelsToPercentage_finite_width; assumption).
        assert (Hm : minMainPanelWidthPercentage e = Fin (368 / w * 100))
          by (apply pixelsToPercentage_finite_width; assumption).
        unfold DEFAULT_INPUTLESS_MAIN_WIDTH_PX, DEFAULT_WIDE_MAIN_WIDTH_PX,
          DEFAULT_REGULAR_MAIN_WIDTH_PX.
        destruct (paneType e) eqn:Ht; cbv zeta;
          rewrite (pixelsToPercentage_finite_width e w _ Hcw Hw);
          try (change ((Fin 100 - Fin ?p) / Fin 2)%num with (Fin ((100 + - p) / 2)));
          cbn in Hfit.
        all: try (apply andb_true_iff in Hfit; destruct Hfit as [Hin Hfit];
                  apply negb_true_iff in Hin).
        all: apply Qle_bool_iff in Hfit.
        all: match goal with
             | |- validAllocation _ {| left := Fin 0; main := Fin ?b; right := _ |} =>
                 change (validAllocation e
                           {| left := Fin 0; main := Fin b; right := Fin (100 + - b) |});
                 assert (Hl : minLeft e = Fin 0) by (unfold minLeft; rewrite Hin; reflexivity);
                 apply (validAllocation_Fin e _ _ _ 0 (368 / w * 100) (120 / w * 100));
                 try assumption; unfold Qdiv in *; cbn [Qinv Qnum Qden] in *; nra
             | |- validAllocation _ _ =>
                 destruct (minLeft_nonneg e) as (pl & Hl & Hl0);
                 pose proof (minLeft_le_minPanel e pl _ Hl Hp ltac:(unfold Qdiv; nra)) as Hlp;
                 apply (validAllocation_Fin e _ _ _ pl (368 / w * 100) (120 / w * 100));
                 try assumption; unfold Qdiv in *; cbn [Qinv Qnum Qden] in *; nra
             end. }
  pose proof (safePanelWidth_valid e _ Hv) as Hid.
  split; [exact Hv|]. split; [exact Hid|].
  intros Hnone. unfold loadPanelSize. rewrite Hnone, Hid. reflexivity.
Qed.

(** ** Unit conversion *)

Lemma positiveFinite_inv (cw : number) :
  positiveFinite cw = true -> exists w, cw = Fin w /\ 0 < w.
Proof.
  unfold positiveFinite. destruct cw as [| | |w]; try discriminate.
  cbn. unfold Qltb. intros H. apply negb_true_iff, Qle_bool_false in H.
  exists w. split; [reflexivity | exact H].
Qed.

Lemma percentageToPixels_finite_width (e : Env) (w p : Q) :
  containerWidth e = Fin w -> 0 < w ->
  percentageToPixels e (Fin p) = Fin (p / 100 * w).
Proof.
  intros Hcw Hw. unfold percentageToPixels, widthUnavailable. rewrite Hcw.
  qsplit; try reflexivity; exfalso; lra.
Qed.

(** X3: in a container of positive finite width the two converters are
    inverse to each other on finite values: a percentage turned into pixels
    and back is the same percentage, and a pixel measure turned into a
    percentage and back is the same measure. *)
Theorem unit_conversion_round_trip (e : Env) (v : number) :
  positiveFinite (containerWidth e) = true ->
  Number_isFinite v = true ->
  (pixelsToPercentage e (percentageToPixels e v) == v)%num /\
  (percentageToPixels e (pixelsToPercentage e v) == v)%num.
Proof.
  intros Hpos Hfin. destruct (positiveFinite_inv _ Hpos) as (w & Hcw & Hw).
  destruct v as [| | |q]; try discriminate.
  rewrite (percentageToPixels_finite_width e w q Hcw Hw).
  rewrite !(pixelsToPercentage_finite_width e w _ Hcw Hw).
  rewrite (percentageToPixels_finite_width e w _ Hcw Hw).
  cbn. split; field; lra.
Qed.

(** X4: the pixel widths of an allocation.  In a container of positive
    finite width the three pixel widths of an allocation of finite
    percentages that sum to 100 add up to the container width; while the
    width is unavailable all three are 0. *)
Theorem panelWidthPixels_fill_container (e : Env) (a : NdvPanelsSize) :
  (positiveFinite (containerWidth e) = true ->
   Number_isFinite (left a) = true -> Number_isFinite (main a) = true ->
   Number_isFinite (right a) = true ->
   (total a == Fin 100)%num ->
   (total (panelWidthPixels e a) == containerWidth e)%num) /\
  (widthUnavailable (containerWidth e) = true ->
   panelWidthPixels e a = {| left := Fin 0; main := Fin 0; right := Fin 0 |}).
Proof.
  split.
  - intros Hpos Fl Fm Fr Hsum.
    destruct (positiveFinite_inv _ Hpos) as (w & Hcw & Hw).
    destruct a as [[| | |l] [| | |m] [| | |r]]; try discriminate.
    unfold panelWidthPixels, total in *. cbn [left main right] in *.
    rewrite !(percentageToPixels_finite_width e w _ Hcw Hw), Hcw.
    cbn in *. unfold Qdiv. cbn [Qinv Qnum Qden]. nra.
  - intros G. unfold panelWidthPixels, percentageToPixels. rewrite G. reflexivity.
Qed.

(** ** Storage keys and the store *)

Lemma append_cancel_l (p s1 s2 : string) : p +:+ s1 = p +:+ s2 -> s1 = s2.
Proof.
  induction p as [|c p IH]; cbn; intros H.
  - exact H.
  - injection H as H. exact (IH H).
Qed.

Lemma toUpperCase_inj (t1 t2 : MainPanelType) :
  toUpperCase t1 = toUpperCase t2 -> t1 = t2.
Proof. destruct t1, t2; cbn; intros H; try reflexivity; discriminate. Qed.

Lemma localStorageKey_inj (prefix : string) (e1 e2 : Env) :
  localStorageKey prefix e1 = localStorageKey prefix e2 -> paneType e1 = paneType e2.
Proof.
  unfold localStorageKey. intros H.
  apply append_cancel_l, append_cancel_l in H. exact (toUpperCase_inj _ _ H).
Qed.

(** The two outcomes of a load on the store: left as it is, or its own key
    deleted together with a fall back to the default allocation. *)
Lemma loadPanelSize_store (prefix : string) (e : Env) (st : NdvState) :
  localStorage (loadPanelSize prefix e st) = localStorage st \/
  (localStorage (loadPanelSize prefix e st)
     = delete (localStorageKey prefix e) (localStorage st) /\
   panelWidthPercentage (loadPanelSize prefix e st)
     = safePanelWidth e (defaultPanelSize e)).
Proof.
  unfold loadPanelSize.
  destruct (localStorage st !! localStorageKey prefix e) as [text|]; [|left; reflexivity].
  destruct (text_truthy text); [|left; reflexivity].
  destruct (js_truthy _ && isValid _); [left; reflexivity | right; split; reflexivity].
Qed.

(** X5: the variants never share a storage key, so what is saved under one
    variant is invisible to the others: the entry of another variant is
    untouched by [persistPanelSize], and a load under that other variant
    yields the same allocation as if nothing had been saved. *)
Theorem variants_are_stored_apart (prefix : string) (e1 e2 : Env) (st : NdvState) :
  paneType e1 <> paneType e2 ->
  localStorageKey prefix e1 <> localStorageKey prefix e2 /\
  localStorage (persistPanelSize prefix e1 st) !! localStorageKey prefix e2
    = localStorage st !! localStorageKey prefix e2 /\
  panelWidthPercentage (loadPanelSize prefix e2 (persistPanelSize prefix e1 st))
    = panelWidthPercentage (loadPanelSize prefix e2 st).
Proof.
  intros Hne.
  assert (Hk : localStorageKey prefix e1 <> localStorageKey prefix e2)
    by (intros H; exact (Hne (localStorageKey_inj _ _ _ H))).
  assert (Hget : localStorage (persistPanelSize prefix e1 st) !! localStorageKey prefix e2
                 = localStorage st !! localStorageKey prefix e2)
    by (unfold persistPanelSize; cbn [localStorage]; apply lookup_insert_ne; exact Hk).
  repeat split; try assumption.
  unfold loadPanelSize. rewrite Hget.
  destruct (localStorage st !! localStorageKey prefix e2) as [text|]; [|reflexivity].
  destruct (text_truthy text); [|reflexivity].
  destruct (js_truthy _ && isValid _); reflexivity.
Qed.

(** X6: a load never adds or alters an entry of the store: every key but
    its own keeps its value, its own key is kept or deleted, and the store
    after the load is contained in the store before it. *)
Theorem loadPanelSize_store_frame (prefix : string) (e : Env) (st : NdvState) :
  (forall k : string, k <> localStorageKey prefix e ->
     localStorage (loadPanelSize prefix e st) !! k = localStorage st !! k) /\
  (localStorage (loadPanelSize prefix e st) !! localStorageKey prefix e
     = localStorage st !! localStorageKey prefix e \/
   localStorage (loadPanelSize prefix e st) !! localStorageKey prefix e = None) /\
  localStorage (loadPanelSize prefix e st) ⊆ localStorage st.
Proof.
  destruct (loadPanelSize_store prefix e st) as [-> | [-> _]].
  - repeat split; [left; reflexivity | reflexivity].
  - split; [|split].
    + intros k Hk. apply lookup_delete_ne. congruence.
    + right. apply lookup_delete_eq.
    + apply delete_subseteq.
Qed.

(** X7: loading is idempotent: a second load right after a load changes
    neither the allocation nor the store (a key deleted by the first load is
    found missing by the second, which falls back to the same default). *)
Theorem loadPanelSize_idempotent (prefix : string) (e : Env) (st : NdvState) :
  loadPanelSize prefix e (loadPanelSize prefix e st) = loadPanelSize prefix e st.
Proof.
  remember (loadPanelSize prefix e st) as s eqn:Hs.
  unfold loadPanelSize in Hs.
  destruct (localStorage st !! localStorageKey prefix e) as [text|] eqn:E.
  - destruct (text_truthy text) eqn:T.
    + destruct (js_truthy (jsonParse text (size_to_js (defaultPanelSize e)))
                && isValid (jsonParse text (size_to_js (defaultPanelSize e)))) eqn:V.
      * subst s. unfold loadPanelSize. cbn [localStorage]. rewrite E, T, V. reflexivity.
      * subst s. unfold loadPanelSize. cbn [localStorage].
        rewrite lookup_delete_eq. reflexivity.
    + subst s. unfold loadPanelSize. cbn [localStorage]. rewrite E, T. reflexivity.
  - subst s. unfold loadPanelSize. cbn [localStorage]. rewrite E. reflexivity.
Qed.

(** X8: an allocation with a field that is not finite does not survive a
    save: [JSON.stringify] writes the field as [null], the next load refuses
    the stored value, deletes the key and falls back to the normalized
    default allocation. *)
Theorem persist_non_finite_then_load (prefix : string) (e : Env) (st : NdvState) :
  Number_isFinite (left (panelWidthPercentage st))
  && Number_isFinite (main (panelWidthPercentage st))
  && Number_isFinite (right (panelWidthPercentage st)) = false ->
  let st' := loadPanelSize prefix e (persistPanelSize prefix e st) in
  localStorage st' !! localStorageKey prefix e = None /\
  panelWidthPercentage st' = safePanelWidth e (defaultPanelSize e).
Proof.
  intros Hnf. cbv zeta.
  assert (Hbad : isValid (JObj [("left"%string, json_number (left (panelWidthPercentage st)));
                                ("main"%string, json_number (main (panelWidthPercentage st)));
                                ("right"%string, json_number (right (panelWidthPercentage st)))])
                 = false).
  { apply structurallyInvalid_isValid. unfold structurallyInvalid. cbn.
    unfold json_number.
    destruct (Number_isFinite (left (panelWidthPercentage st))) eqn:Fl;
      [|left; reflexivity].
    destruct (Number_isFinite (main (panelWidthPercentage st))) eqn:Fm;
      [|right; left; reflexivity].
    destruct (Number_isFinite (right (panelWidthPercentage st))) eqn:Fr;
      [discriminate | right; right; left; reflexivity]. }
  rewrite (loadPanelSize_rejected prefix e (persistPanelSize prefix e st) _
             (lookup_insert_eq _ _ _) Hbad).
  cbn [localStorage panelWidthPercentage]. split; [apply lookup_delete_eq | reflexivity].
Qed.

(** X9: a stored value that parses to three finite, non-negative numbers
    with a sum of at most 200 is accepted: the allocation becomes
    [safePanelWidth] of the three numbers and the store is left as it is. *)
Theorem load_accepts_stored (prefix : string) (e : Env) (st : NdvState)
    (v : jsval) (l m r : Q) :
  localStorage st !! localStorageKey prefix e = Some (JsonText v) ->
  hasFields v (Fin l) (Fin m) (Fin r) ->
  0 <= l -> 0 <= m -> 0 <= r -> l + m + r <= 200 ->
  loadPanelSize prefix e st
    = {| panelWidthPercentage :=
           safePanelWidth e {| left := Fin l; main := Fin m; right := Fin r |};
         localStorage := localStorage st |}.
Proof.
  intros Hget (Hl & Hm & Hr) H0l H0m H0r Hsum.
  assert (Htruthy : js_truthy v = true).
  { destruct v; try discriminate; reflexivity. }
  assert (Hok : isValid v = true).
  { unfold isValid. rewrite Hl, Hm, Hr. cbn.
    apply Qle_bool_iff in H0l, H0m, H0r, Hsum. rewrite H0l, H0m, H0r, Hsum. reflexivity. }
  unfold loadPanelSize, jsonParse. rewrite Hget.
  cbn [text_truthy JSON_parse]. rewrite Htruthy, Hok. cbn [andb].
  unfold js_to_size. rewrite Hl, Hm, Hr. reflexivity.
Qed.

(** ** Gestures on a valid allocation *)

Lemma num_lt_Fin_false (a b : Q) : (Fin a <? Fin b)%num = false -> b <= a.
Proof.
  cbn. unfold Qltb. intros H. apply negb_false_iff in H.
  apply Qle_bool_iff. exact H.
Qed.

(** [Math.max] of the main floor and a width that is not [NaN]: infinite, or
    a rational at least the floor. *)
Lemma newMain_cases (pm : Q) (v : number) :
  Number_isNaN v = false ->
  Math_max (Fin pm) v = PInf \/ exists c, Math_max (Fin pm) v = Fin c /\ pm <= c.
Proof.
  destruct v as [| | |x]; intros H; try discriminate.
  - left. reflexivity.
  - right. exists pm. split; [reflexivity | lra].
  - right. destruct (Math_max_Fin_spec pm x) as (c & Ec & Hc & _).
    exists c. split; assumption.
Qed.

(** One edge resize, seen from the side that gives way: the side [s] and the
    main panel trade width, the other side [o] is kept. *)
Lemma resize_trade (e : Env) (s m o c pl pm pp : Q) (mk : Q -> Q -> NdvPanelsSize) :
  (forall x y, mk x y = {| left := Fin x; main := Fin c; right := Fin y |}) ->
  minLeft e = Fin pl -> minMainPanelWidthPercentage e = Fin pm ->
  minPanelWidthPercentage e = Fin pp ->
  0 <= pl <= pp -> 0 <= pm -> pm <= c ->
  forall x y, pl <= x -> pp <= y -> x + c + y == 100 ->
  validAllocation e (mk x y) /\ safePanelWidth e (mk x y) = mk x y.
Proof.
  intros Hmk Hl Hm Hp Bl Bm Bc x y Bx By Hsum.
  assert (V : validAllocation e (mk x y)).
  { rewrite Hmk. apply (validAllocation_Fin e x c y pl pm pp); try assumption; lra. }
  split; [exact V | apply safePanelWidth_valid; exact V].
Qed.

(** X10: an edge resize keeps a valid allocation valid and never touches
    the store.  Dragging the left edge keeps the right panel, and the left
    and main panels trade width (their sum is kept); dragging the right edge
    is symmetric; any other direction does nothing.  The width of the event
    may be any number that does not convert to [NaN]. *)
Theorem onResize_keeps_valid (e : Env) (event : ResizeData) (st : NdvState) :
  validAllocation e (panelWidthPercentage st) ->
  Number_isNaN (pixelsToPercentage e (width event)) = false ->
  let a := panelWidthPercentage st in
  let a' := panelWidthPercentage (onResize e event st) in
  validAllocation e a' /\
  localStorage (onResize e event st) = localStorage st /\
  (direction event = "left"%string ->
   right a' = right a /\ (left a' + main a' == left a + main a)%num) /\
  (direction event = "right"%string ->
   left a' = left a /\ (main a' + right a' == main a + right a)%num) /\
  (direction event <> "left"%string -> direction event <> "right"%string ->
   onResize e event st = st).
Proof.
  intros V Hnan. cbv zeta.
  pose proof V as V0.
  destruct (validAllocation_inv e _ V)
    as (l & m & r & pl & pm & pp & Ha & Hl & Hm & Hp & Bl & Bm & Ll & Lm & Lr & Hsum).
  destruct st as [a store]. cbn [panelWidthPercentage localStorage] in *. subst a.
  pose (st := {| panelWidthPercentage := {| left := Fin l; main := Fin m; right := Fin r |};
                localStorage := store |}).
  assert (U : forall s : NdvState, s = st ->
            validAllocation e (panelWidthPercentage s) /\
            localStorage s = store /\
            (direction event = "left"%string ->
             right (panelWidthPercentage s) = Fin r /\
             (left (panelWidthPercentage s) + main (panelWidthPercentage s)
              == Fin l + Fin m)%num) /\
            (direction event = "right"%string ->
             left (panelWidthPercentage s) = Fin l /\
             (main (panelWidthPercentage s) + right (panelWidthPercentage s)
              == Fin m + Fin r)%num) /\
            (direction event <> "left"%string -> direction event <> "right"%string ->
             s = st)).
  { intros s ->. cbn. repeat split; try assumption; try reflexivity; apply V0. }
  unfold onResize. cbn [panelWidthPercentage left main right]. rewrite Hm, Hp.
  destruct (String.eqb_spec (direction event) "left") as [Dl | Dl].
  - (* the left edge *)
    assert (Dr : direction event <> "right"%string) by (rewrite Dl; discriminate).
    destruct (newMain_cases pm _ Hnan) as [-> | (c & -> & Hc)].
    + apply U. reflexivity.
    + change (Fin l - (Fin c - Fin m))%num with (Fin (l + - (c + - m))).
      destruct (Fin (l + - (c + - m)) <? Fin pp)%num eqn:T.
      * apply U. reflexivity.
      * apply num_lt_Fin_false in T.
        rewrite Math_max_le by (apply Qle_bool_iff; exact T).
        destruct (resize_trade e l m r c pl pm pp
                    (fun x y => {| left := Fin x; main := Fin c; right := Fin y |})
                    (fun _ _ => eq_refl) Hl Hm Hp Bl Bm Hc
                    (l + - (c + - m)) r) as (V' & ->); [lra | exact Lr | lra |].
        unfold setPanelWidth. cbn [panelWidthPercentage localStorage left main right].
        split; [exact V'|]. split; [reflexivity|].
        split; [intros _; split; [reflexivity | cbn; lra]|].
        split; intros; contradiction.
  - destruct (String.eqb_spec (direction event) "right") as [Dr | Dr].
    + (* the right edge *)
      destruct (newMain_cases pm _ Hnan) as [-> | (c & -> & Hc)].
      * apply U. reflexivity.
      * change (Fin r - (Fin c - Fin m))%num with (Fin (r + - (c + - m))).
        destruct (Fin (r + - (c + - m)) <? Fin pp)%num eqn:T.
        -- apply U. reflexivity.
        -- apply num_lt_Fin_false in T.
           rewrite Math_max_le by (apply Qle_bool_iff; exact T).
           destruct (resize_trade e l m r c pl pm pp
                       (fun x y => {| left := Fin x; main := Fin c; right := Fin y |})
                       (fun _ _ => eq_refl) Hl Hm Hp Bl Bm Hc
                       l (r + - (c + - m))) as (V' & ->); [exact Ll | exact T | lra |].
           unfold setPanelWidth. cbn [panelWidthPercentage localStorage left main right].
           split; [exact V'|]. split; [reflexivity|].
           split; [intros; contradiction|].
           split; [intros _; split; [reflexivity | cbn; lra] | intros; contradiction].
    + apply U. reflexivity.
Qed.

Lemma Math_max_Fin_cases (p s : Q) :
  (p <= s /\ Math_max (Fin p) (Fin s) = Fin s) \/
  (s < p /\ Math_max (Fin p) (Fin s) = Fin p).
Proof.
  cbn. destruct (Qle_bool p s) eqn:E;
    [apply Qle_bool_iff in E; left | apply Qle_bool_false in E; right];
    split; auto.
Qed.

Lemma Math_max_Fin_inv (p nl : Q) (v : number) :
  Math_max (Fin p) v = Fin nl ->
  p <= nl /\ (v = NInf \/ exists s, v = Fin s /\ s <= nl).
Proof.
  destruct v as [| | |s]; cbn; try discriminate.
  - intros H. injection H as <-. split; [lra | left; reflexivity].
  - destruct (Qle_bool p s) eqn:E;
      [apply Qle_bool_iff in E | apply Qle_bool_false in E];
      intros H; injection H as <-; (split; [lra | right; exists s; split; [reflexivity | lra]]).
Qed.

(** A drag from a valid allocation whose candidate [left] is the rational
    [nl]: rejected when [nl], the main panel and the right floor do not fit
    in 100, committed as [(nl, main, 100 - nl - main)] otherwise. *)
Lemma onDrag_on_valid (e : Env) (position : XYPosition) (st : NdvState) (nl : Q) :
  validAllocation e (panelWidthPercentage st) ->
  Math_max (minPanelWidthPercentage e)
    (pixelsToPercentage e (fst position) - main (panelWidthPercentage st) / Fin 2)%num
    = Fin nl ->
  exists m pp,
    main (panelWidthPercentage st) = Fin m /\ minPanelWidthPercentage e = Fin pp /\
    0 <= pp <= nl /\
    ((100 < nl + m + pp /\ onDrag e position st = st) \/
     (nl + m + pp <= 100 /\
      onDrag e position st
        = setPanelWidth st
            {| left := Fin nl; main := Fin m; right := Fin (100 + - nl + - m) |} /\
      validAllocation e
        {| left := Fin nl; main := Fin m; right := Fin (100 + - nl + - m) |})).
Proof.
  intros V Hnl.
  destruct (validAllocation_inv e _ V)
    as (l & m & r & pl & pm & pp & Ha & Hl & Hm & Hp & Bl & Bm & Ll & Lm & Lr & Hsum).
  exists m, pp. rewrite Ha. cbn [main]. rewrite Hp in *.
  destruct (Math_max_Fin_inv _ _ _ Hnl) as (Hpn & _).
  split; [reflexivity|]. split; [reflexivity|]. split; [lra|].
  unfold onDrag. rewrite Hp, Hnl, Ha. cbn [main].
  change (Fin 100 - Fin nl - Fin m)%num with (Fin (100 + - nl + - m)).
  destruct (Math_max_Fin_cases pp (100 + - nl + - m)) as [(Hfit & ->) | (Hover & ->)].
  - right. split; [lra|].
    assert (V' : validAllocation e
                   {| left := Fin nl; main := Fin m; right := Fin (100 + - nl + - m) |}).
    { apply (validAllocation_Fin e _ _ _ pl pm pp); try assumption; lra. }
    rewrite (safePanelWidth_valid e _ V'). cbn [left main right].
    replace (Fin nl + Fin m + Fin (100 + - nl + - m) >? Fin 100)%num with false.
    + split; [reflexivity | exact V'].
    + symmetry. apply num_eq_not_gt. cbn. lra.
  - left. split; [lra|].
    replace (Fin nl + Fin m + Fin pp >? Fin 100)%num with true; [reflexivity|].
    symmetry. cbn. unfold Qltb. apply negb_true_iff, Qle_bool_false. lra.
Qed.

(** X11: a drag of the divider keeps a valid allocation valid, wherever the
    pointer is, provided its position does not convert to [NaN]: the drag is
    either rejected or commits an allocation that is again finite, within
    the minimums and of sum 100. *)
Theorem onDrag_keeps_valid (e : Env) (position : XYPosition) (st : NdvState) :
  validAllocation e (panelWidthPercentage st) ->
  Number_isNaN (pixelsToPercentage e (fst position)) = false ->
  validAllocation e (panelWidthPercentage (onDrag e position st)).
Proof.
  intros V Hnan.
  destruct (validAllocation_inv e _ V)
    as (l & m & r & pl & pm & pp & Ha & Hl & Hm & Hp & Bl & Bm & Ll & Lm & Lr & Hsum).
  destruct (Math_max (minPanelWidthPercentage e)
              (pixelsToPercentage e (fst position)
               - main (panelWidthPercentage st) / Fin 2)%num) as [| | |nl] eqn:Hnl.
  - (* the candidate is never NaN *)
    exfalso. rewrite Hp, Ha in Hnl. cbn [main] in Hnl.
    change (Fin m / Fin 2)%num with (Fin (m / 2)) in Hnl.
    destruct (pixelsToPercentage e (fst position)); discriminate || (cbn in Hnl;
      destruct (Qle_bool _ _) in Hnl; discriminate).
  - (* an infinite candidate is rejected *)
    unfold onDrag. rewrite Hnl, Hp, Ha. cbn [main]. cbn. exact V.
  - exfalso. rewrite Hp, Ha in Hnl. cbn [main] in Hnl.
    change (Fin m / Fin 2)%num with (Fin (m / 2)) in Hnl.
    destruct (pixelsToPercentage e (fst position)); discriminate || (cbn in Hnl;
      destruct (Qle_bool _ _) in Hnl; discriminate).
  - destruct (onDrag_on_valid e position st nl V Hnl)
      as (m' & pp' & _ & _ & _ & [(_ & ->) | (_ & -> & V')]); assumption.
Qed.

(** X12: a drag never puts the divider anywhere but under the pointer.
    From a valid allocation and a pointer at the finite percentage [x], the
    state after [onDrag] is either the state before it (the drag was
    rejected) or has the main panel centred on the pointer as far as the
    left floor allows ([left = max(minPanel, x - main/2)]), [main] kept and
    the right panel taking the rest (the sum is 100).  The drag is rejected
    whenever the main panel would push the right panel under its floor
    ([x + main/2 + minPanel > 100] or [2 minPanel + main > 100]).  Which of
    the fitting drags are committed is left open: the program decides it by
    comparing with 100 a sum that equals 100. *)
Theorem onDrag_commits_centred (e : Env) (position : XYPosition) (st : NdvState)
    (x : Q) :
  validAllocation e (panelWidthPercentage st) ->
  pixelsToPercentage e (fst position) = Fin x ->
  let a := panelWidthPercentage st in
  let a' := panelWidthPercentage (onDrag e position st) in
  let floor := minPanelWidthPercentage e in
  let half := (main a / Fin 2)%num in
  (onDrag e position st = st \/
   (left a' = Math_max floor (Fin x - half)%num /\
    main a' = main a /\
    (left a' + main a' + right a' == Fin 100)%num)) /\
  ((Fin x + half + floor >? Fin 100)%num = true \/
   (floor + main a + floor >? Fin 100)%num = true ->
   onDrag e position st = st).
Proof.
  intros V Hx. cbv zeta.
  destruct (validAllocation_inv e _ V)
    as (l & m & r & pl & pm & pp & Ha & Hl & Hm & Hp & Bl & Bm & Ll & Lm & Lr & Hsum).
  assert (Hhalf : (main (panelWidthPercentage st) / Fin 2)%num = Fin (m / 2))
    by (rewrite Ha; reflexivity).
  assert (Hmain : main (panelWidthPercentage st) = Fin m) by (rewrite Ha; reflexivity).
  rewrite Hhalf, Hp, Hmain.
  change (Fin x - Fin (m / 2))%num with (Fin (x + - (m / 2))).
  destruct (Math_max_Fin_spec pp (x + - (m / 2))) as (nl & Hnl & Hn1 & Hn2 & _).
  destruct (onDrag_on_valid e position st nl V) as (m' & pp' & Em & Ep & Bp & Hcases).
  { rewrite Hp, Hx, Hhalf. exact Hnl. }
  rewrite Hmain in Em. injection Em as <-. rewrite Hp in Ep. injection Ep as <-.
  rewrite Hnl.
  destruct Hcases as [(Hov & ->) | (Hfit & -> & _)].
  - split; [left; reflexivity | intros _; reflexivity].
  - split.
    + right. unfold setPanelWidth. cbn [panelWidthPercentage left main right].
      split; [reflexivity|]. split; [reflexivity|]. cbn. lra.
    + intros Hrej. exfalso. cbn in Hrej. unfold Qltb in Hrej.
      destruct Hrej as [Hrej | Hrej];
        apply negb_true_iff, Qle_bool_false in Hrej; qarith.
Qed.

(** ** What the overflow branch takes away *)

(** The two trims of an overflowing allocation are shares of the overflow:
    neither is negative. *)
Lemma trims_nonneg (cl cm cr : Q) :
  0 <= cl -> 0 <= cr -> ~ cl + cr == 0 -> 100 < cl + cm + cr ->
  let c := {| left := Fin cl; main := Fin cm; right := Fin cr |} in
  exists tl tr,
    trimLeft c = Fin tl /\ trimRight c = Fin tr /\
    tl + tr == cl + cm + cr - 100 /\ 0 <= tl /\ 0 <= tr.
Proof.
  intros Hl Hr Hnz Hov. cbv zeta. unfold trimRight, trimLeft, overflow, total.
  cbn [left main right]. cbn.
  pose proof Hnz as Hnz'. apply Qeq_bool_false in Hnz'. rewrite Hnz'.
  eexists _, _. split; [reflexivity|]. split; [reflexivity|].
  assert (Hpos : 0 < cl + cr) by lra.
  assert (Hinv : 0 < / (cl + cr)) by (apply Qinv_lt_0_compat; exact Hpos).
  assert (Hone : (cl + cr) * / (cl + cr) == 1) by (apply Qmult_inv_r; exact Hnz).
  set (i := / (cl + cr)) in *.
  assert (Hshare : 0 <= cl * i <= 1) by nra.
  unfold Qdiv. fold i. cbn.
  split; [lra|]. split; nra.
Qed.

(** X13: what the overflow branch of [safePanelWidth] takes away, for a
    candidate and a container width within range.  When the clamped
    candidate sums to more than 100 (and its outer panels are not both
    zero), the main panel is returned untrimmed, neither outer panel comes
    out wider than it went in, the result does not sum to less than 100 (the
    trim removes the overflow at most), and it sums to more than 100 only
    with an outer panel sitting on its minimum: short of a floor, the whole
    overflow is removed. *)
Theorem safePanelWidth_trims_overflow_only (e : Env) (p : NdvPanelsSize) :
  widthInRange (containerWidth e) = true ->
  candidateInRange p = true ->
  degenerate e p = false ->
  (total (clampedPanelWidth e p) >? Fin 100)%num = true ->
  let c := clampedPanelWidth e p in
  let r := safePanelWidth e p in
  main r = main c /\
  (left r <=? left c)%num = true /\
  (right r <=? right c)%num = true /\
  (Fin 100 <=? total r)%num = true /\
  ((Fin 100 <? total r)%num = true -> left r = minLeft e \/ right r = minRight e).
Proof.
  intros _ _ Hdeg Hov. cbv zeta. rewrite safePanelWidth_eq. cbv zeta. rewrite Hov.
  unfold degenerate in Hdeg. rewrite Hov in Hdeg. cbn [andb] in Hdeg.
  destruct (clampedPanelWidth_spec e p)
    as (cl & cm & cr & pl & pm & pr & Hc & Hl & Hm & Hr & Bl & Bm & Br).
  rewrite Hc in *. rewrite Hl, Hr. cbn [left main right] in *.
  cbn in Hdeg. apply Qeq_bool_false in Hdeg.
  unfold total in Hov. cbn in Hov. unfold Qltb in Hov.
  apply negb_true_iff, Qle_bool_false in Hov.
  destruct (trims_nonneg cl cm cr) as (tl & tr & -> & -> & Hsum & Htl & Htr);
    try assumption; try lra.
  change (Fin cl - Fin tl)%num with (Fin (cl + - tl)).
  change (Fin cr - Fin tr)%num with (Fin (cr + - tr)).
  destruct (Math_max_Fin_cases pl (cl + - tl)) as [(H1 & ->) | (H1 & ->)];
    destruct (Math_max_Fin_cases pr (cr + - tr)) as [(H2 & ->) | (H2 & ->)];
    unfold total; cbn [left main right]; cbn;
    (split; [reflexivity|]); (split; [apply Qle_bool_iff; lra|]);
    (split; [apply Qle_bool_iff; lra|]); (split; [apply Qle_bool_iff; lra|]);
    unfold Qltb; intros Hgt; apply negb_true_iff, Qle_bool_false in Hgt;
    first [ left; reflexivity | right; reflexivity | exfalso; lra ].
Qed.

(** ** The watchers *)

(** A pixel measure is a smaller share of a wider container. *)
Lemma percentage_antitone (px w w' : Q) :
  0 <= px -> 0 < w -> w <= w' -> px / w' * 100 <= px / w * 100.
Proof.
  intros Hpx Hw Hww.
  assert (Hi : 0 < / w) by (apply Qinv_lt_0_compat; exact Hw).
  assert (Hi' : 0 < / w') by (apply Qinv_lt_0_compat; lra).
  assert (H1 : w * / w == 1) by (apply Qmult_inv_r; lra).
  assert (H1' : w' * / w' == 1) by (apply Qmult_inv_r; lra).
  unfold Qdiv. set (i := / w) in *. set (i' := / w') in *.
  assert (Hii : 0 <= i * i') by nra.
  assert (Hle : i' <= i).
  { assert (E : i' == (i * i') * w) by nra.
    assert (E' : i == (i * i') * w') by nra.
    rewrite E, E'. nra. }
  nra.
Qed.

(** The three minimums in a container of finite positive width. *)
Lemma minimums_finite_width (e : Env) (w : Q) :
  containerWidth e = Fin w -> 0 < w ->
  minPanelWidthPercentage e = Fin (120 / w * 100) /\
  minMainPanelWidthPercentage e = Fin (368 / w * 100) /\
  minLeft e = (if hasInputPanel e then Fin (120 / w * 100) else Fin 0).
Proof.
  intros Hcw Hw.
  assert (Hp : minPanelWidthPercentage e = Fin (120 / w * 100))
    by (apply pixelsToPercentage_finite_width; assumption).
  split; [exact Hp|].
  split; [apply pixelsToPercentage_finite_width; assumption|].
  unfold minLeft. rewrite Hp. reflexivity.
Qed.

(** X14: a container that grows leaves a valid allocation alone.  When the
    width goes from a positive finite [w] to a larger finite [w'], the
    minimums shrink, the allocation that was valid for [w] is valid for
    [w'], and the watcher of the container width returns the state as it
    is: the percentages are kept and the store is not touched. *)
Theorem container_growth_keeps_allocation (prefix : string) (e e' : Env)
    (st : NdvState) (w w' : Q) :
  containerWidth e = Fin w -> containerWidth e' = Fin w' ->
  0 < w -> w <= w' ->
  hasInputPanel e' = hasInputPanel e ->
  validAllocation e (panelWidthPercentage st) ->
  onContainerWidthChange prefix e' (containerWidth e) st = st /\
  validAllocation e' (panelWidthPercentage st).
Proof.
  intros Hcw Hcw' Hw Hww Hin V.
  assert (Hw' : 0 < w') by lra.
  destruct (validAllocation_inv e _ V)
    as (l & m & r & pl & pm & pp & Ha & Hl & Hm & Hp & Bl & Bm & Ll & Lm & Lr & Hsum).
  destruct (minimums_finite_width e w Hcw Hw) as (Ep & Em & El).
  destruct (minimums_finite_width e' w' Hcw' Hw') as (Ep' & Em' & El').
  rewrite Hp in Ep. injection Ep as ->. rewrite Hm in Em. injection Em as ->.
  pose proof (percentage_antitone 120 w w' ltac:(lra) Hw Hww) as A120.
  pose proof (percentage_antitone 368 w w' ltac:(lra) Hw Hww) as A368.
  pose proof (percentage_nonneg 120 w' ltac:(lra) Hw') as N120.
  pose proof (percentage_nonneg 368 w' ltac:(lra) Hw') as N368.
  assert (V' : validAllocation e' (panelWidthPercentage st)).
  { rewrite Ha. rewrite Hin in El'. rewrite Hl in El.
    destruct (hasInputPanel e).
    - injection El as ->.
      apply (validAllocation_Fin e' l m r _ _ _ El' Em' Ep'); lra.
    - injection El as ->.
      apply (validAllocation_Fin e' l m r _ _ _ El' Em' Ep'); lra. }
  split; [|exact V'].
  unfold onContainerWidthChange. rewrite Hcw, Hcw'. cbn [num_falsy].
  assert (F : Qeq_bool w 0 = false) by (apply Qeq_bool_false; lra).
  assert (F' : Qeq_bool w' 0 = false) by (apply Qeq_bool_false; lra).
  rewrite F, F', (safePanelWidth_valid e' _ V'). destruct st; reflexivity.
Qed.

(** X15: each variant remembers its own layout across a switch.  After the
    end of a resize has saved a valid allocation under variant A, switching
    the panel to another variant B (which loads B's layout, and may delete
    B's key) and back to A restores exactly the allocation that was saved. *)
Theorem layout_survives_variant_switch (prefix : string) (eA eB : Env)
    (st : NdvState) :
  paneType eA <> paneType eB ->
  validAllocation eA (panelWidthPercentage st) ->
  let saved := onResizeEnd prefix eA st in
  let away := onPaneTypeChange prefix eB saved in
  let back := onPaneTypeChange prefix eA away in
  panelWidthPercentage back = panelWidthPercentage st.
Proof.
  intros Hne V. cbv zeta. unfold onPaneTypeChange, onResizeEnd.
  assert (Hk : localStorageKey prefix eB <> localStorageKey prefix eA).
  { intros H. apply Hne. symmetry. exact (localStorageKey_inj _ _ _ H). }
  set (saved := persistPanelSize prefix eA st).
  assert (Hsaved : localStorage saved !! localStorageKey prefix eA
                   = Some (JSON_stringify (panelWidthPercentage st))).
  { unfold saved, persistPanelSize. cbn [localStorage]. apply lookup_insert_eq. }
  assert (Haway : localStorage (loadPanelSize prefix eB saved) !! localStorageKey prefix eA
                  = Some (JSON_stringify (panelWidthPercentage st))).
  { destruct (loadPanelSize_store prefix eB saved) as [-> | [-> _]].
    - exact Hsaved.
    - rewrite lookup_delete_ne by exact Hk. exact Hsaved. }
  pose proof V as ((Fl & Fm & Fr & _) & _).
  rewrite (loadPanelSize_stringified prefix eA _ _ Haway Fl Fm Fr
             (validAllocation_isValid eA _ V)).
  cbn [panelWidthPercentage]. apply safePanelWidth_valid. exact V.
Qed.

(** X16: whatever the store holds under the key (nothing, an empty string,
    text that does not parse, a value of another shape, numbers out of
    range), in a container of finite width of at least one pixel a load
    leaves an allocation of three finite, non-negative percentages, each at
    least its minimum. *)
Theorem loadPanelSize_always_sane (prefix : string) (e : Env) (st : NdvState) :
  Number_isFinite (containerWidth e) = true ->
  (Fin 1 <=? containerWidth e)%num = true ->
  finiteNonNegative (panelWidthPercentage (loadPanelSize prefix e st)) /\
  respectsMinimums e (panelWidthPercentage (loadPanelSize prefix e st)).
Proof.
  intros Hfin Hone.
  assert (Hpos : positiveFinite (containerWidth e) = true).
  { unfold positiveFinite. rewrite Hfin.
    destruct (containerWidth e) as [| | |w]; try discriminate.
    cbn in *. unfold Qltb. apply Qle_bool_iff in Hone.
    apply negb_true_iff, Qle_bool_false. lra. }
  assert (S : forall p, finiteNonNegative (safePanelWidth e p) /\
                        respectsMinimums e (safePanelWidth e p)).
  { intros p. destruct (safePanelWidth_analysis e p) as (H1 & H2 & _).
    apply H1, H2, Hpos. }
  unfold loadPanelSize.
  destruct (localStorage st !! localStorageKey prefix e) as [text|]; [|apply S].
  destruct (text_truthy text); [|apply S].
  destruct (js_truthy _ && isValid _); apply S.
Qed.

(** ** The further theorems with a hypothesis, at concrete inputs *)

Lemma valid_30_40_30 :
  validAllocation env1000 {| left := Fin 30; main := Fin 40; right := Fin 30 |}.
Proof. repeat split; vm_compute; reflexivity. Defined.

(** X1 in the 1000px container, regular variant: the default allocation is
    (29, 42, 29). *)
Lemma defaultPanelSize_sums_to_100_witness :
  widthInRange (containerWidth env1000) = true /\
  (total (defaultPanelSize env1000) == Fin 100)%num /\
  left (defaultPanelSize env1000) = right (defaultPanelSize env1000).
Proof.
  split; [reflexivity|].
  destruct (defaultPanelSize_sums_to_100 env1000 eq_refl) as (_ & _ & _ & T & C).
  split; [exact T | exact C].
Defined.

(** X3 at 25 (percent, then pixels) in the 1000px container. *)
Lemma unit_conversion_round_trip_witness :
  (positiveFinite (containerWidth env1000) = true /\
   Number_isFinite (Fin 25) = true) /\
  (pixelsToPercentage env1000 (percentageToPixels env1000 (Fin 25)) == Fin 25)%num /\
  (percentageToPixels env1000 (pixelsToPercentage env1000 (Fin 25)) == Fin 25)%num.
Proof.
  split; [split; reflexivity|].
  exact (unit_conversion_round_trip env1000 (Fin 25) eq_refl eq_refl).
Defined.

(** X4 at (30, 40, 30): 300px, 400px and 300px in the 1000px container, three
    zeros while the width is 0. *)
Lemma panelWidthPixels_fill_container_witness :
  let a := {| left := Fin 30; main := Fin 40; right := Fin 30 |} in
  (total (panelWidthPixels env1000 a) == containerWidth env1000)%num /\
  panelWidthPixels env0 a = {| left := Fin 0; main := Fin 0; right := Fin 0 |}.
Proof.
  cbv zeta. split.
  - apply (proj1 (panelWidthPixels_fill_container env1000 _));
      vm_compute; reflexivity.
  - exact (proj2 (panelWidthPixels_fill_container env0 _) eq_refl).
Defined.

(** X2 in the 1000px container, regular variant, nothing stored: the
    default (29, 42, 29) opens as it is. *)
Lemma default_opens_as_is_witness :
  let st := stateOf initialPanelWidthPercentage ∅ in
  defaultFits env1000 = true /\
  validAllocation env1000 (defaultPanelSize env1000) /\
  loadPanelSize "N8N_NDV_PANEL_WIDTH" env1000 st
    = {| panelWidthPercentage := defaultPanelSize env1000;
         localStorage := localStorage st |}.
Proof.
  cbv zeta. split; [reflexivity|].
  destruct (default_opens_as_is "N8N_NDV_PANEL_WIDTH" env1000
              (stateOf initialPanelWidthPercentage ∅) eq_refl) as (V & _ & L).
  split; [exact V | exact (L (lookup_empty _))].
Defined.

(** X5 at the regular and the wide variant. *)
Lemma variants_are_stored_apart_witness :
  let st := stateOf {| left := Fin 30; main := Fin 40; right := Fin 30 |} ∅ in
  paneType env1000 <> paneType envWide1000 /\
  localStorageKey "N8N_NDV_PANEL_WIDTH" env1000
    <> localStorageKey "N8N_NDV_PANEL_WIDTH" envWide1000 /\
  panelWidthPercentage
    (loadPanelSize "N8N_NDV_PANEL_WIDTH" envWide1000
       (persistPanelSize "N8N_NDV_PANEL_WIDTH" env1000 st))
  = panelWidthPercentage (loadPanelSize "N8N_NDV_PANEL_WIDTH" envWide1000 st).
Proof.
  cbv zeta.
  assert (Hne : paneType env1000 <> paneType envWide1000) by discriminate.
  split; [exact Hne|].
  destruct (variants_are_stored_apart "N8N_NDV_PANEL_WIDTH" env1000 envWide1000
              (stateOf {| left := Fin 30; main := Fin 40; right := Fin 30 |} ∅) Hne)
    as (K & _ & L).
  split; [exact K | exact L].
Defined.

(** X8 at the allocation (NaN, 40, 30). *)
Lemma persist_non_finite_then_load_witness :
  let st := stateOf {| left := NaN; main := Fin 40; right := Fin 30 |} ∅ in
  let st' := loadPanelSize "N8N_NDV_PANEL_WIDTH" env1000
               (persistPanelSize "N8N_NDV_PANEL_WIDTH" env1000 st) in
  Number_isFinite (left (panelWidthPercentage st))
  && Number_isFinite (main (panelWidthPercentage st))
  && Number_isFinite (right (panelWidthPercentage st)) = false /\
  localStorage st' !! localStorageKey "N8N_NDV_PANEL_WIDTH" env1000 = None /\
  panelWidthPercentage st' = safePanelWidth env1000 (defaultPanelSize env1000).
Proof.
  cbv zeta. split; [reflexivity|].
  exact (persist_non_finite_then_load "N8N_NDV_PANEL_WIDTH" env1000
           (stateOf {| left := NaN; main := Fin 40; right := Fin 30 |} ∅) eq_refl).
Defined.

(** X9 at the stored value [{"left":50,"main":50,"right":50}], which sums
    to 150 and is normalized to (25, 50, 25). *)
Lemma load_accepts_stored_witness :
  let k := localStorageKey "N8N_NDV_PANEL_WIDTH" env1000 in
  let v := JObj [("left"%string, JNum (Fin 50)); ("main"%string, JNum (Fin 50));
                 ("right"%string, JNum (Fin 50))] in
  let st := stateOf initialPanelWidthPercentage {[ k := JsonText v ]} in
  (localStorage st !! k = Some (JsonText v) /\
   hasFields v (Fin 50) (Fin 50) (Fin 50) /\ 50 + 50 + 50 <= 200) /\
  loadPanelSize "N8N_NDV_PANEL_WIDTH" env1000 st
    = {| panelWidthPercentage :=
           safePanelWidth env1000 {| left := Fin 50; main := Fin 50; right := Fin 50 |};
         localStorage := localStorage st |}.
Proof.
  cbv zeta.
  assert (F : hasFields
                (JObj [("left"%string, JNum (Fin 50)); ("main"%string, JNum (Fin 50));
                       ("right"%string, JNum (Fin 50))]) (Fin 50) (Fin 50) (Fin 50))
    by (repeat split).
  split; [split; [apply lookup_singleton_eq | split; [exact F | lra]]|].
  exact (load_accepts_stored "N8N_NDV_PANEL_WIDTH" env1000
           (stateOf initialPanelWidthPercentage
              {[ localStorageKey "N8N_NDV_PANEL_WIDTH" env1000
                 := JsonText (JObj [("left"%string, JNum (Fin 50));
                                    ("main"%string, JNum (Fin 50));
                                    ("right"%string, JNum (Fin 50))]) ]})
           _ 50 50 50 (lookup_singleton_eq _ _) F
           ltac:(lra) ltac:(lra) ltac:(lra) ltac:(lra)).
Defined.

(** X10 at a resize of the left edge to 500px in the 1000px container, from
    (30, 40, 30): the right panel keeps its 30 and the two others still
    share 70. *)
Lemma onResize_keeps_valid_witness :
  let a := {| left := Fin 30; main := Fin 40; right := Fin 30 |} in
  let event := {| width := Fin 500; direction := "left" |} in
  let a' := panelWidthPercentage (onResize env1000 event (stateOf a ∅)) in
  (validAllocation env1000 a /\
   Number_isNaN (pixelsToPercentage env1000 (width event)) = false) /\
  validAllocation env1000 a' /\
  right a' = right a /\ (left a' + main a' == left a + main a)%num.
Proof.
  cbv zeta. split; [split; [exact valid_30_40_30 | reflexivity]|].
  destruct (onResize_keeps_valid env1000 {| width := Fin 500; direction := "left" |}
              (stateOf {| left := Fin 30; main := Fin 40; right := Fin 30 |} ∅)
              valid_30_40_30 eq_refl) as (V & _ & L & _).
  split; [exact V | exact (L eq_refl)].
Defined.

(** X11 at a drag to 500px in the 1000px container, from (30, 40, 30). *)
Lemma onDrag_keeps_valid_witness :
  let a := {| left := Fin 30; main := Fin 40; right := Fin 30 |} in
  (validAllocation env1000 a /\
   Number_isNaN (pixelsToPercentage env1000 (fst (Fin 500, Fin 0))) = false) /\
  validAllocation env1000
    (panelWidthPercentage (onDrag env1000 (Fin 500, Fin 0) (stateOf a ∅))).
Proof.
  cbv zeta. split; [split; [exact valid_30_40_30 | reflexivity]|].
  exact (onDrag_keeps_valid env1000 (Fin 500, Fin 0)
           (stateOf {| left := Fin 30; main := Fin 40; right := Fin 30 |} ∅)
           valid_30_40_30 eq_refl).
Defined.

(** X12 at a drag to 400px in the 1000px container, from (30, 40, 30): the
    state is kept, or the main panel, 40 wide, is centred on 40 percent. *)
Lemma onDrag_commits_centred_witness :
  let a := {| left := Fin 30; main := Fin 40; right := Fin 30 |} in
  let after := onDrag env1000 (Fin 400, Fin 0) (stateOf a ∅) in
  (validAllocation env1000 a /\
   pixelsToPercentage env1000 (fst (Fin 400, Fin 0)) = Fin (400 / 1000 * 100)) /\
  (after = stateOf a ∅ \/
   (left (panelWidthPercentage after)
      = Math_max (minPanelWidthPercentage env1000)
          (Fin (400 / 1000 * 100) - main a / Fin 2)%num /\
    main (panelWidthPercentage after) = main a /\
    (left (panelWidthPercentage after) + main (panelWidthPercentage after)
     + right (panelWidthPercentage after) == Fin 100)%num)).
Proof.
  cbv zeta. split; [split; [exact valid_30_40_30 | reflexivity]|].
  exact (proj1 (onDrag_commits_centred env1000 (Fin 400, Fin 0)
                  (stateOf {| left := Fin 30; main := Fin 40; right := Fin 30 |} ∅)
                  (400 / 1000 * 100) valid_30_40_30 eq_refl)).
Defined.

(** X13 at the candidate (50, 50, 50) in the 1000px container, trimmed to
    (25, 50, 25). *)
Lemma safePanelWidth_trims_overflow_only_witness :
  let p := {| left := Fin 50; main := Fin 50; right := Fin 50 |} in
  (widthInRange (containerWidth env1000) = true /\ candidateInRange p = true /\
   degenerate env1000 p = false /\
   (total (clampedPanelWidth env1000 p) >? Fin 100)%num = true) /\
  main (safePanelWidth env1000 p) = main (clampedPanelWidth env1000 p) /\
  (Fin 100 <=? total (safePanelWidth env1000 p))%num = true.
Proof.
  cbv zeta.
  assert (D : degenerate env1000 {| left := Fin 50; main := Fin 50; right := Fin 50 |}
              = false) by (vm_compute; reflexivity).
  assert (O : (total (clampedPanelWidth env1000
                        {| left := Fin 50; main := Fin 50; right := Fin 50 |})
               >? Fin 100)%num = true) by (vm_compute; reflexivity).
  split; [split; [reflexivity | split; [reflexivity | split; [exact D | exact O]]]|].
  destruct (safePanelWidth_trims_overflow_only env1000
              {| left := Fin 50; main := Fin 50; right := Fin 50 |}
              eq_refl eq_refl D O) as (M & _ & _ & T & _).
  split; [exact M | exact T].
Defined.

(** X14 at the allocation (30, 40, 30) when the container goes from 1000px
    to 1200px. *)
Lemma container_growth_keeps_allocation_witness :
  let st := stateOf {| left := Fin 30; main := Fin 40; right := Fin 30 |} ∅ in
  (0 < 1000 /\ 1000 <= 1200 /\ validAllocation env1000 (panelWidthPercentage st)) /\
  onContainerWidthChange "N8N_NDV_PANEL_WIDTH" env1200 (containerWidth env1000) st = st /\
  validAllocation env1200 (panelWidthPercentage st).
Proof.
  cbv zeta.
  split; [split; [lra | split; [lra | exact valid_30_40_30]]|].
  exact (container_growth_keeps_allocation "N8N_NDV_PANEL_WIDTH" env1000 env1200
           (stateOf {| left := Fin 30; main := Fin 40; right := Fin 30 |} ∅)
           1000 1200 eq_refl eq_refl ltac:(lra) ltac:(lra) eq_refl valid_30_40_30).
Defined.

(** X15 at the allocation (30, 40, 30) of the regular variant, across a
    switch to the wide variant and back. *)
Lemma layout_survives_variant_switch_witness :
  let st := stateOf {| left := Fin 30; main := Fin 40; right := Fin 30 |} ∅ in
  (paneType env1000 <> paneType envWide1000 /\
   validAllocation env1000 (panelWidthPercentage st)) /\
  panelWidthPercentage
    (onPaneTypeChange "N8N_NDV_PANEL_WIDTH" env1000
       (onPaneTypeChange "N8N_NDV_PANEL_WIDTH" envWide1000
          (onResizeEnd "N8N_NDV_PANEL_WIDTH" env1000 st)))
  = panelWidthPercentage st.
Proof.
  cbv zeta.
  assert (Hne : paneType env1000 <> paneType envWide1000) by discriminate.
  split; [split; [exact Hne | exact valid_30_40_30]|].
  exact (layout_survives_variant_switch "N8N_NDV_PANEL_WIDTH" env1000 envWide1000
           (stateOf {| left := Fin 30; main := Fin 40; right := Fin 30 |} ∅)
           Hne valid_30_40_30).
Defined.

(** X16 at a store holding the text ["{left:"] in the 1000px container. *)
Lemma loadPanelSize_always_sane_witness :
  let k := localStorageKey "N8N_NDV_PANEL_WIDTH" env1000 in
  let st := stateOf initialPanelWidthPercentage {[ k := OtherText "{left:" ]} in
  (Number_isFinite (containerWidth env1000) = true /\
   (Fin 1 <=? containerWidth env1000)%num = true) /\
  finiteNonNegative
    (panelWidthPercentage (loadPanelSize "N8N_NDV_PANEL_WIDTH" env1000 st)) /\
  respectsMinimums env1000
    (panelWidthPercentage (loadPanelSize "N8N_NDV_PANEL_WIDTH" env1000 st)).
Proof.
  cbv zeta. split; [split; reflexivity|].
  exact (loadPanelSize_always_sane "N8N_NDV_PANEL_WIDTH" env1000 _ eq_refl eq_refl).
Defined.
